(** * A shallow embedding of the vespacli installer and downloader scripts

    The repository ships several revisions of one installer
    ([vespa_client/cli/installer.py], [vespa/cli/installer.py]), a batch
    downloader ([utils/download_binaries.py]), a version check script
    ([utils/check_latest_version.py]) and the console entry point
    ([vespacli/__init__.py]).  Every Python function used below is
    translated into a program of a small state-and-exception monad whose
    state is the part of the outside world the scripts touch: the file
    system, the environment, the log and a trace of the effects (HTTP
    requests, file removals, copies, subprocesses).  The answers of the
    outside world (HTTP responses, archive decoding, subprocess exit
    codes, the host platform) are fixed by a [World] record carried in the
    state. *)

From stdpp Require Import base gmap strings list pretty.
From Stdlib Require Import String Ascii.
Open Scope string_scope.

(* ------------------------------------------------------------------ *)
(** ** Python string operations *)

(** [str.lower] on ASCII text. *)
Definition lower_ascii (c : ascii) : ascii :=
  let n := nat_of_ascii c in
  if (65 <=? n)%nat && (n <=? 90)%nat then ascii_of_nat (n + 32) else c.

Fixpoint lower (s : string) : string :=
  match s with
  | EmptyString => EmptyString
  | String c t => String (lower_ascii c) (lower t)
  end.

(** [needle in hay] for two strings: [needle] is a substring of [hay]. *)
Fixpoint str_contains (needle hay : string) : bool :=
  String.prefix needle hay ||
  match hay with
  | EmptyString => false
  | String _ t => str_contains needle t
  end.

(** [s.endswith(suffix)]. *)
Definition endswith (s suffix : string) : bool :=
  String.eqb (substring (String.length s - String.length suffix)
                        (String.length suffix) s) suffix
  && (String.length suffix <=? String.length s)%nat.

(** [s.split(sep)] for a one-character separator: the list of pieces
    between separators, empty pieces included. *)
Fixpoint split_on (sep : ascii) (s : string) : list string :=
  match s with
  | EmptyString => [EmptyString]
  | String c t =>
      match split_on sep t with
      | [] => [] (* unreachable: the result is never empty *)
      | w :: ws =>
          if Ascii.eqb c sep then EmptyString :: w :: ws
          else String c w :: ws
      end
  end.

(** Whitespace as [str.split()] sees it, for a character taken as the
    code point below 256 it encodes: tab to carriage return, the
    separators 0x1C to 0x1F, space, NEL (0x85) and no-break space (0xA0). *)
Definition is_space (c : ascii) : bool :=
  let n := nat_of_ascii c in
  ((9 <=? n)%nat && (n <=? 13)%nat) || ((28 <=? n)%nat && (n <=? 32)%nat)
  || (n =? 133)%nat || (n =? 160)%nat.

(** [s.split()]: maximal runs of non-whitespace characters. *)
Fixpoint split_ws_aux (cur : string) (s : string) : list string :=
  match s with
  | EmptyString => if String.eqb cur EmptyString then [] else [cur]
  | String c t =>
      if is_space c then
        (if String.eqb cur EmptyString then [] else [cur]) ++ split_ws_aux EmptyString t
      else split_ws_aux (cur ++ String c EmptyString) t
  end.

Definition split_ws (s : string) : list string := split_ws_aux EmptyString s.

(** [s.strip("v")]: drop leading and trailing ['v'] characters. *)
Fixpoint lstrip_v (s : string) : string :=
  match s with
  | String "v"%char t => lstrip_v t
  | _ => s
  end.

Fixpoint string_rev (s : string) : string :=
  match s with
  | EmptyString => EmptyString
  | String c t => string_rev t ++ String c EmptyString
  end.

Definition strip_v (s : string) : string :=
  string_rev (lstrip_v (string_rev (lstrip_v s))).

(** [x in xs] for a list of strings. *)
Definition str_in (x : string) (xs : list string) : bool :=
  existsb (String.eqb x) xs.

(** [d.get(k, default)] on a dict literal kept as its list of items. *)
Fixpoint dict_get {V} (d : list (string * V)) (k : string) (default : V) : V :=
  match d with
  | [] => default
  | (k', v) :: d' => if String.eqb k k' then v else dict_get d' k default
  end.

(** [os.path.join(a, b)] of [posixpath]. *)
Definition posix_join (a b : string) : string :=
  match String.get 0 b with
  | Some "/"%char => b
  | _ =>
      if String.eqb a EmptyString then b
      else if endswith a "/" then a ++ b else a ++ "/" ++ b
  end.

(** [os.path.join(a, b)] of [ntpath] for a relative [b] (the Windows
    paths built by the installer). *)
Definition nt_join (a b : string) : string :=
  if String.eqb a EmptyString then b
  else if endswith a "\" || endswith a "/" then a ++ b else a ++ "\" ++ b.

(* ------------------------------------------------------------------ *)
(** ** The outside world *)

(** What [requests.get] yields: a connection failure (raised as
    [requests.exceptions.ConnectionError]) or a response with its status
    code and its body. *)
Inductive response :=
  | RespConnError
  | Resp (status : nat) (body : string).

(** What [subprocess.run] yields: the exit code of the child, or an
    [OSError] because the program could not be started. *)
Inductive proc_outcome :=
  | Exited (code : Z)
  | NotLaunched.

Record World := {
  platform_system : string;   (** [platform.system()] *)
  platform_machine : string;  (** [platform.machine()] *)
  http : string -> response;  (** the server behind each URL *)
  (** decoding of an archive's bytes by [tarfile] ("tar") or [zipfile]
      ("zip"): its members, or [None] when the bytes are not such an
      archive *)
  unpack : string -> string -> option (list (string * string));
  proc : list string -> proc_outcome;
  (** [response.json()["tag_name"]] of a body *)
  json_tag_name : string -> option string;
  cwd : string;                   (** [os.getcwd()] *)
  read_only : string -> bool;     (** writing this path is refused *)
  (** the directory two levels above [utils/download_binaries.py] *)
  project_root : string;
  (** the directory of the installed [vespacli/__init__.py] *)
  package_dir : string
}.

(** The Python exceptions the scripts can raise. *)
Inductive exc :=
  | ValueError (msg : string)
  | ConnectionError (url : string)  (** a [RequestException] *)
  | HTTPError (status : nat)        (** a [RequestException] *)
  | ReadError (path : string)       (** [tarfile.ReadError], [zipfile.BadZipFile] *)
  | FileNotFoundError (path : string)
  | OSError (msg : string)
  | CalledProcessError (code : Z)   (** a [subprocess.SubprocessError] *)
  | KeyError (key : string)
  | IndexError
  | TypeError (msg : string)
  | Exception (msg : string)        (** a bare [Exception(msg)] *)
  | SystemExit (code : Z).          (** a [BaseException], not an [Exception] *)

Definition is_request_exception (e : exc) : bool :=
  match e with ConnectionError _ | HTTPError _ => true | _ => false end.

Definition is_subprocess_error (e : exc) : bool :=
  match e with CalledProcessError _ => true | _ => false end.

(** [except Exception]. *)
Definition is_exception (e : exc) : bool :=
  match e with SystemExit _ => false | _ => true end.

Inductive level := Info | Warning | Error.

(** Observable effects, in the order they happen. *)
Inductive event :=
  | EvGet (url : string)
  | EvRead (path : string)
  | EvWrite (path : string)
  | EvAppend (path : string)
  | EvRemove (path : string)
  | EvCopy (src dst : string)
  | EvMkdir (path : string)
  | EvChmod (path : string)
  | EvSymlink (src dst : string)
  | EvRun (cmd : list string).

Record St := {
  world : World;
  files : gmap string string;
  dirs : gset string;
  env : gmap string string;
  counter : nat;               (** source of fresh temporary names *)
  logs : list (level * string);
  trace : list event
}.

Definition set_files (f : gmap string string) (s : St) : St :=
  {| world := world s; files := f; dirs := dirs s; env := env s;
     counter := counter s; logs := logs s; trace := trace s |}.
Definition set_dirs (d : gset string) (s : St) : St :=
  {| world := world s; files := files s; dirs := d; env := env s;
     counter := counter s; logs := logs s; trace := trace s |}.
Definition set_counter (n : nat) (s : St) : St :=
  {| world := world s; files := files s; dirs := dirs s; env := env s;
     counter := n; logs := logs s; trace := trace s |}.
Definition set_logs (l : list (level * string)) (s : St) : St :=
  {| world := world s; files := files s; dirs := dirs s; env := env s;
     counter := counter s; logs := l; trace := trace s |}.
Definition set_trace (t : list event) (s : St) : St :=
  {| world := world s; files := files s; dirs := dirs s; env := env s;
     counter := counter s; logs := logs s; trace := t |}.

(* ------------------------------------------------------------------ *)
(** ** [os.path] of the host *)

(** [platform.system().lower() == "windows"]: [os.path] is [ntpath]. *)
Definition is_windows (w : World) : bool :=
  String.eqb (lower (platform_system w)) "windows".

Definition is_sep (seps : list ascii) (c : ascii) : bool :=
  existsb (Ascii.eqb c) seps.

Definition nt_seps : list ascii := ["\"%char; "/"%char].
Definition posix_seps : list ascii := ["/"%char].

(** The separators [os.path] accepts on the host. *)
Definition path_seps (w : World) : list ascii :=
  if is_windows w then nt_seps else posix_seps.

Fixpoint drop_while (p : ascii -> bool) (s : string) : string :=
  match s with
  | String c t => if p c then drop_while p t else s
  | EmptyString => EmptyString
  end.

Fixpoint takewhile_str (p : ascii -> bool) (s : string) : string :=
  match s with
  | String c t => if p c then String c (takewhile_str p t) else EmptyString
  | EmptyString => EmptyString
  end.

(** [ntpath.dirname] for a path whose last separator is not its drive
    root: everything before the last separator, trailing separators
    removed. *)
Definition dirname_with (seps : list ascii) (path : string) : string :=
  string_rev (drop_while (is_sep seps)
                (drop_while (fun c => negb (is_sep seps c)) (string_rev path))).

Definition nt_dirname : string -> string := dirname_with nt_seps.

(** [posixpath.dirname]: [head = p[:p.rfind('/') + 1]], then
    [head.rstrip('/')] unless [head] is all slashes. *)
Definition posix_dirname (path : string) : string :=
  let head := string_rev (drop_while (fun c => negb (is_sep posix_seps c))
                                     (string_rev path)) in
  let stripped := string_rev (drop_while (is_sep posix_seps) (string_rev head)) in
  if String.eqb stripped EmptyString then head else stripped.

Definition os_dirname (w : World) (path : string) : string :=
  if is_windows w then nt_dirname path else posix_dirname path.

(** [os.path.join(a, b)] of the host. *)
Definition os_join (w : World) (a b : string) : string :=
  if is_windows w then nt_join a b else posix_join a b.

(** [os.path.basename]: the text after the last separator. *)
Definition basename_with (seps : list ascii) (path : string) : string :=
  string_rev (takewhile_str (fun c => negb (is_sep seps c)) (string_rev path)).

Definition os_basename (w : World) (path : string) : string :=
  basename_with (path_seps w) path.

(** The last character of [path] is a separator of the host. *)
Definition ends_with_sep (w : World) (path : string) : bool :=
  match string_rev path with
  | String c _ => is_sep (path_seps w) c
  | EmptyString => false
  end.

(* ------------------------------------------------------------------ *)
(** ** The state-and-exception monad *)

Inductive outcome (A : Type) :=
  | Ret (a : A)
  | Exn (e : exc).
Arguments Ret {A} a.
Arguments Exn {A} e.

Definition M (A : Type) : Type := St -> St * outcome A.

Global Instance M_ret : MRet M := fun A a s => (s, Ret a).
Global Instance M_bind : MBind M := fun A B f m s =>
  match m s with
  | (s', Ret a) => f a s'
  | (s', Exn e) => (s', Exn e)
  end.

Definition raise {A} (e : exc) : M A := fun s => (s, Exn e).

Definition gets {A} (f : St -> A) : M A := fun s => (s, Ret (f s)).

Definition modify (f : St -> St) : M unit := fun s => (f s, Ret tt).

(** [try: body  except E as e: handler(e)] where [E] is given by the
    test [catches]. *)
Definition try_except {A} (body : M A) (catches : exc -> bool)
    (handler : exc -> M A) : M A := fun s =>
  match body s with
  | (s', Exn e) => if catches e then handler e s' else (s', Exn e)
  | r => r
  end.

(** [try: body  finally: fin]: an exception of [fin] replaces the outcome
    of [body]. *)
Definition try_finally {A} (body : M A) (fin : M unit) : M A := fun s =>
  match body s with
  | (s1, r) =>
      match fin s1 with
      | (s2, Ret _) => (s2, r)
      | (s2, Exn e) => (s2, Exn e)
      end
  end.

(* ------------------------------------------------------------------ *)
(** ** Library calls *)

Definition log_ (lvl : level) (msg : string) : M unit :=
  modify (fun s => set_logs (logs s ++ [(lvl, msg)]) s).

Definition emit (ev : event) : M unit :=
  modify (fun s => set_trace (trace s ++ [ev]) s).

(** [requests.get(url)]. *)
Definition requests_get (url : string) : M (nat * string) :=
  emit (EvGet url);;
  r ← gets (fun s => http (world s) url);
  match r with
  | RespConnError => raise (ConnectionError url)
  | Resp st body => mret (st, body)
  end.

(** [response.raise_for_status()]: [requests] raises [HTTPError] for the
    client errors (400 to 499) and the server errors (500 to 599) only. *)
Definition raise_for_status (status : nat) : M unit :=
  if (400 <=? status)%nat && (status <? 600)%nat
  then raise (HTTPError status) else mret tt.

Definition refuse_read_only (path : string) : M unit :=
  denied ← gets (fun s => read_only (world s) path);
  if (denied : bool) then raise (OSError ("Permission denied: " ++ path)) else mret tt.

(** A directory the file system has: the current directory (an empty
    [dirname]), the root, or one that was created. *)
Definition dir_exists (s : St) (d : string) : bool :=
  String.eqb d EmptyString || String.eqb d "/" || bool_decide (d ∈ dirs s).

(** What [open(path, "w")] and [open(path, "a")] check before writing:
    a directory, or a path ending in a separator, is not a file
    ([IsADirectoryError]); a missing parent directory raises
    [FileNotFoundError]; a refused path raises [PermissionError]. *)
Definition check_writable (path : string) : M unit :=
  isdir ← gets (fun s => bool_decide (path ∈ dirs s) || ends_with_sep (world s) path);
  parent_ok ← gets (fun s => dir_exists s (os_dirname (world s) path));
  if (isdir : bool) then raise (OSError ("Is a directory: " ++ path))
  else if negb parent_ok then raise (FileNotFoundError path)
  else refuse_read_only path.

(** [open(path, "wb").write(content)]. *)
Definition write_file (path content : string) : M unit :=
  check_writable path;;
  emit (EvWrite path);;
  modify (fun s => set_files (<[path := content]> (files s)) s).

Definition read_file (path : string) : M string :=
  emit (EvRead path);;
  f ← gets (fun s => files s !! path);
  match f with
  | Some c => mret c
  | None => raise (FileNotFoundError path)
  end.

(** [open(path, "a").write(text)]. *)
Definition append_file (path text : string) : M unit :=
  check_writable path;;
  emit (EvAppend path);;
  f ← gets (fun s => files s !! path);
  modify (fun s => set_files (<[path := default EmptyString f ++ text]> (files s)) s).

(** [os.remove(path)]. *)
Definition os_remove (path : string) : M unit :=
  f ← gets (fun s => files s !! path);
  match f with
  | Some _ =>
      emit (EvRemove path);;
      modify (fun s => set_files (delete path (files s)) s)
  | None => raise (FileNotFoundError path)
  end.

(** [os.path.exists(path)]. *)
Definition path_exists (path : string) : M bool :=
  gets (fun s => bool_decide (is_Some (files s !! path))
                 || bool_decide (path ∈ dirs s)).

(** [os.makedirs(path, exist_ok=True)]. *)
Definition makedirs (path : string) : M unit :=
  emit (EvMkdir path);;
  modify (fun s => set_dirs ({[path]} ∪ dirs s) s).

(** The directory [tempfile] puts its files in. *)
Definition tempdir : string := "/tmp".

(** A name [tempfile] has not handed out yet, in its directory, which
    exists. *)
Definition fresh_name (suffix : string) : M string :=
  n ← gets counter;
  modify (set_counter (S n));;
  modify (fun s => set_dirs ({[tempdir]} ∪ dirs s) s);;
  mret ("/tmp/tmp" ++ pretty (N.of_nat n) ++ suffix).

(** [tempfile.mkdtemp()]. *)
Definition mkdtemp : M string :=
  d ← fresh_name EmptyString;
  modify (fun s => set_dirs ({[d]} ∪ dirs s) s);;
  mret d.

(** [tempfile.NamedTemporaryFile(suffix=..., delete=False)]: an empty
    file that stays after the [with] block. [tempfile] creates it with
    [O_CREAT | O_EXCL] under a name that is free in its directory, so
    only a refused path stops it. *)
Definition named_temporary_file (suffix : string) : M string :=
  p ← fresh_name suffix;
  refuse_read_only p;;
  emit (EvWrite p);;
  modify (fun s => set_files (<[p := EmptyString]> (files s)) s);;
  mret p.

(** [shutil.copy(src, dst)]: into [dst/basename(src)] when [dst] is a
    directory; the source is opened first, then the destination. *)
Definition shutil_copy (src dst : string) : M unit :=
  isdir ← gets (fun s => bool_decide (dst ∈ dirs s));
  w ← gets world;
  let target := if (isdir : bool) then os_join w dst (os_basename w src) else dst in
  c ← read_file src;
  check_writable target;;
  emit (EvCopy src target);;
  modify (fun s => set_files (<[target := c]> (files s)) s).

(** [subprocess.run(cmd)]: the exit code of the child. *)
Definition subprocess_run (cmd : list string) : M Z :=
  emit (EvRun cmd);;
  o ← gets (fun s => proc (world s) cmd);
  match o with
  | Exited c => mret c
  | NotLaunched => raise (OSError (default EmptyString (head cmd)))
  end.

(** [subprocess.run(cmd, shell=True)]: the shell is started and runs the
    command; on Windows it runs the whole command line, on a posix host
    [/bin/sh -c] runs [cmd[0]] alone. A program the shell cannot start
    makes the shell exit with a non-zero status (9009 for [cmd.exe], 127
    for [sh]), not raise. *)
Definition subprocess_run_shell (cmd : list string) : M Z :=
  win ← gets (fun s => is_windows (world s));
  let run := if (win : bool) then cmd else take 1 cmd in
  emit (EvRun run);;
  o ← gets (fun s => proc (world s) run);
  match o with
  | Exited c => mret c
  | NotLaunched => mret (if win then 9009 else 127)%Z
  end.

(** [os.environ.get(key)]. *)
Definition environ_get (key : string) : M (option string) :=
  gets (fun s => env s !! key).

(** [tarfile.open(path)] / [ZipFile(path)]: the members of the archive. *)
Definition open_archive (kind path : string) : M (list (string * string)) :=
  c ← read_file path;
  u ← gets (fun s => unpack (world s) kind c);
  match u with
  | Some members => mret members
  | None => raise (ReadError path)
  end.

(** [archive.extractall(dest)]: each member is written at
    [os.path.join(dest, name)], after its parent directory is created
    when it is missing ([os.makedirs(upperdirs)] in [tarfile] and
    [zipfile]). *)
Fixpoint extractall (dest : string) (members : list (string * string)) : M unit :=
  match members with
  | [] => mret tt
  | (name, content) :: ms =>
      w ← gets world;
      let target := os_join w dest name in
      let up := os_dirname w target in
      ex ← path_exists up;
      (if negb (String.eqb up EmptyString) && negb ex then makedirs up else mret tt);;
      write_file target content;;
      extractall dest ms
  end.

(** [os.chmod(path, os.stat(path).st_mode | 0o111)]: [os.stat] fails on a
    missing path (a directory is there); the mode bits themselves are not
    modelled. *)
Definition os_chmod_exec (path : string) : M unit :=
  ex ← path_exists path;
  if (ex : bool) then emit (EvChmod path) else raise (FileNotFoundError path).

(** [os.symlink(src, dst)]: the link is a new directory entry at [dst],
    in a directory that must exist and be writable. *)
Definition os_symlink (src dst : string) : M unit :=
  parent_ok ← gets (fun s => dir_exists s (os_dirname (world s) dst));
  ex ← path_exists dst;
  if negb parent_ok then raise (FileNotFoundError dst)
  else if (ex : bool) then raise (OSError ("File exists: " ++ dst))
  else
    refuse_read_only dst;;
    emit (EvSymlink src dst);;
    modify (fun s => set_files (<[dst := "-> " ++ src]> (files s)) s).

(** [str.replace('v', '')]. *)
Fixpoint remove_v (s : string) : string :=
  match s with
  | EmptyString => EmptyString
  | String "v"%char t => remove_v t
  | String c t => String c (remove_v t)
  end.

(** [str(e)] of an exception, as far as the log messages need it. *)
Definition exc_str (e : exc) : string :=
  match e with
  | ValueError m | OSError m | TypeError m | Exception m => m
  | ConnectionError u => "Connection error: " ++ u
  | HTTPError st => "HTTP error " ++ pretty (N.of_nat st)
  | ReadError p => "not an archive: " ++ p
  | FileNotFoundError p => "No such file or directory: " ++ p
  | CalledProcessError c => "non-zero exit status " ++ pretty (Z.to_N c)
  | KeyError k => k
  | IndexError => "list index out of range"
  | SystemExit c => pretty (Z.to_N c)
  end.

(** A newline and a double quote. *)
Definition nl : string := String "010"%char EmptyString.
Definition dq : string := String "034"%char EmptyString.

(** The fields of a [VespaCLIInstaller] object. *)
Record installer := {
  os_name : string;
  arch : string;
  vespa_executable_name : string
}.

Definition release_url (version os arch ext : string) : string :=
  "https://github.com/vespa-engine/vespa/releases/download/v" ++ version
  ++ "/vespa-cli_" ++ version ++ "_" ++ os ++ "_" ++ arch ++ "." ++ ext.

(* ------------------------------------------------------------------ *)
(** ** [src/vespa_client/cli/installer.py] *)

Module VespaClientInstaller.

Definition SUPPORTED_OS : list string := ["windows"; "darwin"; "linux"].
Definition ARCH_MAP : list (string * string) :=
  [("x86_64", "amd64"); ("amd64", "amd64"); ("arm64", "arm64");
   ("aarch64", "arm64")].

(** [find_vespa_executable]: [os.walk] reports the files under the
    directory [extract_path] (nothing when it is not a directory); the
    first one named like the executable is returned. The walk order of
    real directories is the order of the listing; here it is the order of
    the file map. *)
Definition find_vespa_executable (self : installer) (extract_path : string)
    : M string :=
  w ← gets world;
  top_ok ← gets (fun s => negb (String.eqb extract_path EmptyString)
                          && dir_exists s extract_path);
  fs ← gets files;
  let prefix := if ends_with_sep w extract_path then extract_path
                else os_join w extract_path EmptyString in
  let hits := filter (fun p => String.prefix prefix p
                        && String.eqb (os_basename w p) (vespa_executable_name self))
                     (map fst (map_to_list fs)) in
  match (if (top_ok : bool) then hits else []) with
  | p :: _ => mret p
  | [] =>
      log_ Error ("Vespa CLI executable not found in " ++ extract_path);;
      raise (FileNotFoundError (vespa_executable_name self
                                ++ " not found after extraction"))
  end.

Definition get_os_and_architecture : M (string * string) :=
  sysname ← gets (fun s => platform_system (world s));
  mach ← gets (fun s => platform_machine (world s));
  let os_name := lower sysname in
  let machine := lower mach in
  let arch := dict_get (map (fun '(k, v) => (k, Some v)) ARCH_MAP) machine None in
  match arch with
  | Some a =>
      if str_in os_name SUPPORTED_OS then
        log_ Info ("Detected OS: " ++ os_name ++ ", architecture: " ++ machine
                   ++ " mapped to " ++ a);;
        mret (os_name, a)
      else raise (ValueError ("Unsupported OS or architecture: OS=" ++ os_name
                              ++ ", Arch=" ++ machine))
  | None => raise (ValueError ("Unsupported OS or architecture: OS=" ++ os_name
                               ++ ", Arch=" ++ machine))
  end.

(** [__init__]. *)
Definition init : M installer :=
  '(o, a) ← get_os_and_architecture;
  mret {| os_name := o; arch := a;
          vespa_executable_name :=
            if String.eqb o "windows" then "vespa.exe" else "vespa" |}.

Definition download_file (url file_extension : string) : M string :=
  log_ Info ("Starting download from " ++ url);;
  file_path ← named_temporary_file ("." ++ file_extension);
  try_except
    ('(status, body) ← requests_get url;
     raise_for_status status;;
     write_file file_path body;;
     log_ Info ("Download completed and saved to " ++ file_path);;
     mret file_path)
    is_request_exception
    (fun e => log_ Error ("Failed to download file: " ++ exc_str e);; raise e).

Definition extract_file (file_path file_extension : string) : M string :=
  log_ Info ("Extracting file " ++ file_path);;
  extract_path ← mkdtemp;
  try_finally
    (try_except
       ((if String.eqb file_extension "tar.gz" then
           open_archive "tar" file_path ≫= extractall extract_path
         else if String.eqb file_extension "zip" then
           open_archive "zip" file_path ≫= extractall extract_path
         else mret tt);;
        log_ Info "Extraction completed")
       is_exception
       (fun e => log_ Error ("Failed to extract file " ++ file_path ++ ": "
                             ++ exc_str e);;
                 raise e))
    (os_remove file_path);;
  mret extract_path.

Definition download_and_extract_cli (self : installer) (version : string)
    : M string :=
  let file_extension :=
    if String.eqb (os_name self) "windows" then "zip" else "tar.gz" in
  let download_url :=
    release_url version (os_name self) (arch self) file_extension in
  file_path ← download_file download_url file_extension;
  extract_path ← extract_file file_path file_extension;
  mret extract_path.

Definition set_executable_permission (file_path : string) : M unit :=
  sysname ← gets (fun s => platform_system (world s));
  if negb (String.eqb (lower sysname) "windows") then
    os_chmod_exec file_path;;
    log_ Info ("Set executable permission for " ++ file_path)
  else mret tt.

Definition ensure_directory_exists (directory_path : string) : M unit :=
  ex ← path_exists directory_path;
  if negb ex then
    makedirs directory_path;;
    log_ Info ("Created directory " ++ directory_path)
  else mret tt.

(** [subprocess.run([...], shell=True)] with no [check]: the exit status
    is dropped and success is logged whatever [setx] did. *)
Definition update_system_path_windows (new_path : string) : M unit :=
  _ ← subprocess_run_shell ["setx"; "PATH"; "%PATH%;" ++ new_path];
  log_ Info "Successfully added Vespa CLI to system PATH.".

Definition create_alias_windows (self : installer) (vespa_bin_path : string)
    : M unit :=
  up ← environ_get "USERPROFILE";
  match up with
  | None => raise (TypeError "expected str, bytes or os.PathLike object, not NoneType")
  | Some profile =>
      let target_path := nt_join (nt_join profile "bin") (vespa_executable_name self) in
      ensure_directory_exists (nt_dirname target_path);;
      ex ← path_exists target_path;
      if negb ex then
        shutil_copy vespa_bin_path target_path;;
        update_system_path_windows (nt_dirname target_path);;
        log_ Info ("Created alias for vespa in " ++ target_path)
      else log_ Info ("Alias for vespa already exists at " ++ target_path)
  end.

Definition shell_profiles : list string :=
  [".bash_profile"; ".bashrc"; ".zshrc"; ".config/fish/config.fish"].

Fixpoint first_existing (home : string) (profiles : list string)
    : M (option string) :=
  match profiles with
  | [] => mret None
  | profile :: rest =>
      let profile_path := posix_join home profile in
      ex ← path_exists profile_path;
      if (ex : bool) then mret (Some profile_path) else first_existing home rest
  end.

Definition detect_shell_profile : M (option string) :=
  home ← environ_get "HOME";
  match home with
  | None => raise (TypeError "expected str, bytes or os.PathLike object, not NoneType")
  | Some h =>
      found ← first_existing h shell_profiles;
      match found with
      | Some p => mret (Some p)
      | None =>
          log_ Warning "Could not detect shell profile script.";;
          mret None
      end
  end.

Definition create_alias_unix (vespa_bin_path : string) : M unit :=
  shell_profile ← detect_shell_profile;
  match shell_profile with
  | None => log_ Error "Shell profile not found. Manual alias creation required."
  | Some sp =>
      let alias_command :=
        nl ++ "# Alias for Vespa CLI" ++ nl
        ++ "alias vespa=" ++ dq ++ vespa_bin_path ++ dq ++ nl in
      try_except
        (append_file sp alias_command;;
         log_ Info ("Added alias for vespa in " ++ sp);;
         log_ Info ("Please source your shell profile (" ++ sp
                    ++ ") or open a new terminal session for the alias to take effect."))
        is_exception
        (fun e => log_ Error ("Failed to add alias for vespa. " ++ exc_str e))
  end.

Definition create_alias (self : installer) (vespa_bin_path : string) : M unit :=
  if String.eqb (os_name self) "windows" then create_alias_windows self vespa_bin_path
  else create_alias_unix vespa_bin_path.

Definition LATEST_URL : string :=
  "https://api.github.com/repos/vespa-engine/vespa/releases/latest".

(** [res.json()["tag_name"]]: a body without the key raises [KeyError]. *)
Definition json_tag (body : string) : M string :=
  t ← gets (fun s => json_tag_name (world s) body);
  match t with
  | Some tag => mret tag
  | None => raise (KeyError "tag_name")
  end.

Definition get_latest_version : M string :=
  try_except
    ('(status, body) ← requests_get LATEST_URL;
     raise_for_status status;;
     tag ← json_tag body;
     let version := remove_v tag in
     log_ Info ("Latest Vespa CLI version: " ++ version);;
     mret version)
    is_request_exception
    (fun e => log_ Error ("Failed to retrieve the latest version: " ++ exc_str e);;
              raise e).

Definition check_brew_installed : M bool :=
  try_except
    (code ← subprocess_run ["which"; "brew"];
     if Z.eqb code 0 then log_ Info "Homebrew is installed";; mret true
     else log_ Info "Homebrew is not installed. Attempting binary installation.";;
          mret false)
    is_exception
    (fun e => log_ Error ("An error occurred while checking for Homebrew: "
                          ++ exc_str e);;
              mret false).

Definition binary_install (self : installer) : M unit :=
  version ← get_latest_version;
  extract_path ← download_and_extract_cli self version;
  vespa_bin_path ← find_vespa_executable self extract_path;
  set_executable_permission vespa_bin_path;;
  create_alias self vespa_bin_path.

(** [run]: the Homebrew path returns early on success. *)
Definition run (self : installer) : M unit :=
  try_except
    (brew ← (if String.eqb (os_name self) "darwin" then check_brew_installed
             else mret false);
     if (brew : bool) then
       log_ Info "Using Homebrew to install Vespa CLI";;
       code ← subprocess_run ["brew"; "install"; "vespa-cli"];
       if Z.eqb code 0 then log_ Info "Vespa CLI installed successfully"
       else log_ Info "Failed to install Vespa CLI with homebrew. Attempting binary installation.";;
            binary_install self
     else binary_install self)
    is_exception
    (fun e => log_ Error ("An error occurred during installation: " ++ exc_str e)).

End VespaClientInstaller.

(* ------------------------------------------------------------------ *)
(** ** [src/vespa/cli/installer.py] *)

Module VespaInstaller.

Definition SUPPORTED_OS : list string := ["windows"; "darwin"; "linux"].
Definition ARCH_MAP : list (string * string) :=
  [("x86_64", "amd64"); ("amd64", "amd64"); ("arm64", "arm64");
   ("aarch64", "arm64")].

(** Unknown machine strings default to ["386"]. *)
Definition get_os_and_architecture : M (string * string) :=
  sysname ← gets (fun s => platform_system (world s));
  mach ← gets (fun s => platform_machine (world s));
  let os_name := lower sysname in
  let machine := lower mach in
  let arch := dict_get ARCH_MAP machine "386" in
  if negb (str_in os_name SUPPORTED_OS) then
    raise (ValueError ("Unsupported OS: " ++ os_name))
  else
    log_ Info ("Detected OS: " ++ os_name ++ ", architecture: " ++ machine
               ++ " mapped to " ++ arch);;
    mret (os_name, arch).

Definition init : M installer :=
  '(o, a) ← get_os_and_architecture;
  mret {| os_name := o; arch := a;
          vespa_executable_name :=
            if String.eqb o "windows" then "vespa.exe" else "vespa" |}.

Definition download_file (url file_extension : string) : M string :=
  log_ Info ("Starting download from " ++ url);;
  tar_file_path ← named_temporary_file ("." ++ file_extension);
  try_except
    ('(status, body) ← requests_get url;
     raise_for_status status;;
     write_file tar_file_path body;;
     log_ Info ("Download completed and saved to " ++ tar_file_path);;
     mret tar_file_path)
    is_request_exception
    (fun e => log_ Error "Failed to download file";; raise e).

(** Extraction into the working directory; no [except] clause. *)
Definition extract_file (file_path file_extension : string) : M unit :=
  log_ Info ("Extracting file " ++ file_path);;
  here ← gets (fun s => cwd (world s));
  try_finally
    ((if String.eqb file_extension "tar.gz" then
        open_archive "tar" file_path ≫= extractall here
      else if String.eqb file_extension "zip" then
        open_archive "zip" file_path ≫= extractall here
      else mret tt);;
     log_ Info "Extraction completed")
    (os_remove file_path).

Definition download_and_extract_cli (self : installer) (version : string)
    : M unit :=
  let file_extension :=
    if String.eqb (os_name self) "windows" then "zip" else "tar.gz" in
  let download_url :=
    release_url version (os_name self) (arch self) file_extension in
  tar_file_path ← download_file download_url file_extension;
  extract_file tar_file_path file_extension;;
  log_ Info "Vespa CLI has been successfully installed.".

Definition set_executable_permission : string -> M unit :=
  VespaClientInstaller.set_executable_permission.

Definition ensure_directory_exists : string -> M unit :=
  VespaClientInstaller.ensure_directory_exists.

(** [subprocess.run(..., check=True)] inside [try ... except
    subprocess.SubprocessError]. *)
Definition update_system_path_windows (new_path : string) : M unit :=
  try_except
    (code ← subprocess_run ["setx"; "PATH"; "%PATH%;" ++ new_path];
     (if Z.eqb code 0 then mret tt else raise (CalledProcessError code));;
     log_ Info "Successfully added Vespa CLI to PATH.")
    is_subprocess_error
    (fun _ => log_ Error "Failed to update system PATH").

Definition add_to_path (self : installer) (new_path : string) : M unit :=
  if String.eqb (os_name self) "windows" then update_system_path_windows new_path
  else mret tt.

Definition create_alias_windows (self : installer) (vespa_bin_path : string)
    : M unit :=
  up ← environ_get "USERPROFILE";
  match up with
  | None => raise (TypeError "expected str, bytes or os.PathLike object, not NoneType")
  | Some profile =>
      let target_path := nt_join (nt_join profile "bin") (vespa_executable_name self) in
      ensure_directory_exists (nt_dirname target_path);;
      ex ← path_exists target_path;
      (if negb ex then shutil_copy vespa_bin_path target_path else mret tt);;
      add_to_path self (nt_dirname target_path)
  end.

Definition create_alias_unix (vespa_bin_path : string) : M unit :=
  let target_path := "/usr/local/bin/vespa" in
  ex ← path_exists target_path;
  (if (ex : bool) then os_remove target_path else mret tt);;
  os_symlink vespa_bin_path target_path;;
  log_ Info ("Created symlink for vespa at " ++ target_path).

Definition create_alias (self : installer) (vespa_bin_path : string) : M unit :=
  if String.eqb (os_name self) "windows" then create_alias_windows self vespa_bin_path
  else create_alias_unix vespa_bin_path.

Definition run (self : installer) : M unit :=
  try_except
    ('(status, body) ← requests_get VespaClientInstaller.LATEST_URL;
     raise_for_status status;;
     tag ← VespaClientInstaller.json_tag body;
     let version := remove_v tag in
     download_and_extract_cli self version;;
     here ← gets (fun s => cwd (world s));
     let vespa_bin_path :=
       posix_join here ("vespa-cli_" ++ version ++ "_" ++ arch self ++ "/bin/"
                        ++ vespa_executable_name self) in
     set_executable_permission vespa_bin_path;;
     create_alias self vespa_bin_path)
    is_exception
    (fun e => log_ Error ("An error occurred during installation: " ++ exc_str e)).

End VespaInstaller.

(* ------------------------------------------------------------------ *)
(** ** [hashlib.sha256(data).hexdigest()] (FIPS 180-4) *)

Module Sha256.
Local Open Scope Z_scope.

(** The round constants and the initial hash value, from their
    definition in FIPS 180-4: the first 32 bits of the fractional parts of
    the cube roots of the first 64 primes, and of the square roots of the
    first 8 primes. *)
Fixpoint is_prime_aux (n d : nat) (fuel : nat) : bool :=
  match fuel with
  | O => true
  | S f => if (n <? d * d)%nat then true
           else if (n mod d =? 0)%nat then false
           else is_prime_aux n (S d) f
  end.

Definition is_prime (n : nat) : bool := (2 <=? n)%nat && is_prime_aux n 2 n.

Definition primes (k : nat) : list Z :=
  map Z.of_nat (firstn k (filter is_prime (seq 0 320))).

(** [Z.root3 n]: the largest [r] with [r * r * r <= n], by setting the
    bits of [r] from the highest one down. *)
Fixpoint root3_bits (n r : Z) (bit : nat) : Z :=
  let r' := Z.lor r (Z.shiftl 1 (Z.of_nat bit)) in
  let r'' := if r' * r' * r' <=? n then r' else r in
  match bit with
  | O => r''
  | S b => root3_bits n r'' b
  end.

Definition root3 (n : Z) : Z := root3_bits n 0 40.

Definition K : list Z := Eval vm_compute in
  map (fun p => Z.land (root3 (Z.shiftl p 96)) 0xffffffff) (primes 64).

Definition H0 : list Z := Eval vm_compute in
  map (fun p => Z.land (Z.sqrt (Z.shiftl p 64)) 0xffffffff) (primes 8).

Definition mask32 (x : Z) : Z := Z.land x 0xffffffff.
Definition add32 (x y : Z) : Z := mask32 (x + y).
Definition rotr (x : Z) (n : Z) : Z :=
  mask32 (Z.lor (Z.shiftr x n) (Z.shiftl x (32 - n))).

Definition Ch (x y z : Z) : Z := Z.lxor (Z.land x y) (Z.land (Z.lxor x 0xffffffff) z).
Definition Maj (x y z : Z) : Z := Z.lxor (Z.lxor (Z.land x y) (Z.land x z)) (Z.land y z).
Definition Sigma0 (x : Z) : Z := Z.lxor (Z.lxor (rotr x 2) (rotr x 13)) (rotr x 22).
Definition Sigma1 (x : Z) : Z := Z.lxor (Z.lxor (rotr x 6) (rotr x 11)) (rotr x 25).
Definition sigma0 (x : Z) : Z := Z.lxor (Z.lxor (rotr x 7) (rotr x 18)) (Z.shiftr x 3).
Definition sigma1 (x : Z) : Z := Z.lxor (Z.lxor (rotr x 17) (rotr x 19)) (Z.shiftr x 10).

(** Padding: 0x80, zeros up to 56 mod 64, the bit length on 8 bytes. *)
Definition be_bytes (n : nat) (x : Z) : list Z :=
  map (fun i => Z.land (Z.shiftr x (8 * Z.of_nat (n - 1 - i))) 255) (seq 0 n).

Definition pad (msg : list Z) : list Z :=
  let len := List.length msg in
  let zeros := ((119 - len mod 64) mod 64)%nat in
  (msg ++ [128] ++ repeat 0 zeros ++ be_bytes 8 (8 * Z.of_nat len))%list.

Fixpoint words (bs : list Z) : list Z :=
  match bs with
  | a :: b :: c :: d :: rest =>
      (Z.lor (Z.shiftl a 24) (Z.lor (Z.shiftl b 16) (Z.lor (Z.shiftl c 8) d)))
        :: words rest
  | _ => []
  end.

Definition nth_w (w : list Z) (i : nat) : Z := nth i w 0.

(** The message schedule, extended from 16 to 64 words. *)
Fixpoint schedule (fuel : nat) (w : list Z) : list Z :=
  match fuel with
  | O => w
  | S f =>
      let t := List.length w in
      schedule f (app w [add32 (add32 (sigma1 (nth_w w (t - 2))) (nth_w w (t - 7)))
                              (add32 (sigma0 (nth_w w (t - 15))) (nth_w w (t - 16)))])
  end.

Definition round (st : list Z) (kw : Z * Z) : list Z :=
  match st with
  | [a; b; c; d; e; f; g; h] =>
      let t1 := add32 (add32 (add32 h (Sigma1 e)) (add32 (Ch e f g) (fst kw))) (snd kw) in
      let t2 := add32 (Sigma0 a) (Maj a b c) in
      [add32 t1 t2; a; b; c; add32 d t1; e; f; g]
  | _ => st
  end.

Definition compress (hs : list Z) (block : list Z) : list Z :=
  let w := schedule 48 (words block) in
  let st := fold_left round (combine K w) hs in
  zip_with add32 hs st.

Fixpoint blocks (fuel : nat) (bs : list Z) : list (list Z) :=
  match fuel with
  | O => []
  | S f => match bs with [] => [] | _ => firstn 64 bs :: blocks f (skipn 64 bs) end
  end.

Definition digest (msg : list Z) : list Z :=
  let p := pad msg in
  fold_left compress (blocks (List.length p) p) H0.

Definition hex_digit (n : Z) : ascii :=
  if n <? 10 then ascii_of_nat (48 + Z.to_nat n) else ascii_of_nat (87 + Z.to_nat n).

Fixpoint hex_word_aux (k : nat) (x : Z) (acc : string) : string :=
  match k with
  | O => acc
  | S k' => hex_word_aux k' (Z.shiftr x 4) (String (hex_digit (Z.land x 15)) acc)
  end.

Definition hexdigest (data : string) : string :=
  let bytes := map (fun c => Z.of_nat (nat_of_ascii c)) (list_ascii_of_string data) in
  fold_right (fun w acc => hex_word_aux 8 w EmptyString ++ acc) EmptyString (digest bytes).

End Sha256.

(** [open(path, "r").readlines()]: the lines, each with its newline. *)
Fixpoint readlines_aux (cur : string) (s : string) : list string :=
  match s with
  | EmptyString => if String.eqb cur EmptyString then [] else [cur]
  | String c t =>
      if Ascii.eqb c "010"%char then (cur ++ String c EmptyString) :: readlines_aux EmptyString t
      else readlines_aux (cur ++ String c EmptyString) t
  end.

Definition readlines (s : string) : list string := readlines_aux EmptyString s.

(** [xs[-1]] of a non-empty list. *)
Definition last_item (xs : list string) : string := List.last xs EmptyString.

(* ------------------------------------------------------------------ *)
(** ** [src/utils/download_binaries.py] *)

Module VespaBinaryDownloader.

Definition VALID_OS_ARCH : list (string * list string) :=
  [("windows", ["386"; "amd64"]); ("darwin", ["amd64"; "arm64"]);
   ("linux", ["amd64"; "arm64"])].

(** The batch downloader is a build step of the package, run on a posix
    host: its [os.path.join] is [posixpath.join]. *)
Definition INSTALLATION_DIR (w : World) : string :=
  posix_join (posix_join (project_root w) "vespacli") "go-binaries".

Definition download_file (url : string) : M string :=
  log_ Info ("Starting download from " ++ url);;
  let file_name := last_item (split_on "/"%char url) in
  dir ← gets (fun s => INSTALLATION_DIR (world s));
  let file_path := posix_join dir file_name in
  '(status, body) ← requests_get url;
  raise_for_status status;;
  write_file file_path body;;
  log_ Info ("Download complete to " ++ file_path);;
  mret file_path.

(** No [try]: the archive is removed only after a successful extraction. *)
Definition extract_file (file_path extract_to : string) : M unit :=
  log_ Info ("Extracting file " ++ file_path ++ " to " ++ extract_to);;
  (if endswith file_path ".tar.gz" then
     open_archive "tar" file_path ≫= extractall extract_to
   else if endswith file_path ".zip" then
     open_archive "zip" file_path ≫= extractall extract_to
   else mret tt);;
  os_remove file_path.

Definition ensure_directory_exists (directory_path : string) : M unit :=
  ex ← path_exists directory_path;
  (if negb ex then makedirs directory_path else mret tt);;
  log_ Info ("Ensured directory exists: " ++ directory_path).

Definition download_and_extract_cli (version os_name arch : string) : M string :=
  let file_extension := if String.eqb os_name "windows" then "zip" else "tar.gz" in
  let download_url := release_url version os_name arch file_extension in
  dir ← gets (fun s => INSTALLATION_DIR (world s));
  ensure_directory_exists dir;;
  file_path ← download_file download_url;
  extract_file file_path dir;;
  mret file_path.

Definition get_latest_version : M string :=
  log_ Info "Retrieving the latest Vespa CLI version";;
  '(status, body) ← requests_get VespaClientInstaller.LATEST_URL;
  raise_for_status status;;
  tag ← VespaClientInstaller.json_tag body;
  mret (strip_v tag).

Definition download_checksum_file (version : string) : M string :=
  log_ Info "Downloading checksum file";;
  download_file ("https://github.com/vespa-engine/vespa/releases/download/v"
                 ++ version ++ "/vespa-cli_" ++ version ++ "_sha256sums.txt").

(** [line.split()[0]]. *)
Definition first_field (line : string) : M string :=
  match split_ws line with
  | sha :: _ => mret sha
  | [] => raise IndexError
  end.

Fixpoint verify_lines (filename : string) (lines : list string) : M unit :=
  match lines with
  | [] => mret tt
  | line :: rest =>
      (if str_contains filename line then
         sha ← first_field line;
         data ← read_file filename;
         let file_checksum := Sha256.hexdigest data in
         if String.eqb file_checksum sha then
           log_ Info ("Checksum verified for " ++ filename)
         else
           log_ Error ("Checksum verification failed for " ++ filename);;
           raise (Exception ("Checksum verification failed for " ++ filename))
       else mret tt);;
      verify_lines filename rest
  end.

Definition verify_checksum (filename : string) (checksum_content : list string)
    : M unit :=
  log_ Info ("Verifying checksum for " ++ filename);;
  verify_lines filename checksum_content.

Fixpoint for_archs (version os_name : string) (archs : list string)
    (checksum_content : list string) : M unit :=
  match archs with
  | [] => mret tt
  | arch :: rest =>
      file_path ← download_and_extract_cli version os_name arch;
      verify_checksum file_path checksum_content;;
      for_archs version os_name rest checksum_content
  end.

Fixpoint for_platforms (version : string) (table : list (string * list string))
    (checksum_content : list string) : M unit :=
  match table with
  | [] => mret tt
  | (os_name, archs) :: rest =>
      for_archs version os_name archs checksum_content;;
      for_platforms version rest checksum_content
  end.

Definition run : M unit :=
  version ← get_latest_version;
  checksum_file ← download_checksum_file version;
  text ← read_file checksum_file;
  let checksum_content := readlines text in
  log_ Info ("Latest Vespa CLI version: " ++ version);;
  for_platforms version VALID_OS_ARCH checksum_content;;
  log_ Info "Binary download and extraction complete".

End VespaBinaryDownloader.

(** The exit status of a Python process whose main code ended with the
    given outcome: [sys.exit(c)] exits with [c], an uncaught exception
    with 1, a normal end with 0. *)
Definition exit_status {A} (o : outcome A) : Z :=
  match o with
  | Ret _ => 0
  | Exn (SystemExit c) => c
  | Exn _ => 1
  end.

(* ------------------------------------------------------------------ *)
(** ** [src/utils/check_latest_version.py]

    [vespa_version] is the constant of the generated module
    [vespacli._version_generated]; it is a parameter here. *)

Module CheckLatestVersion.

(** The [__main__] block; [print] goes to the log. *)
Definition main (vespa_version : string) : M unit :=
  new_version ← VespaBinaryDownloader.get_latest_version;
  let found_newer := negb (String.eqb new_version vespa_version) in
  (if found_newer then log_ Info ("New version found: " ++ new_version)
   else log_ Info ("Latest version already installed: " ++ vespa_version));;
  raise (SystemExit (if found_newer then 0 else 1)).

End CheckLatestVersion.

(* ------------------------------------------------------------------ *)
(** ** [src/vespacli/__init__.py] *)

Module VespaCli.

Definition get_binary_path (vespa_version : string) : M string :=
  w ← gets world;
  base_path ← gets (fun s => package_dir (world s));
  let go_binaries_path := os_join w base_path "go-binaries" in
  sysname ← gets (fun s => platform_system (world s));
  mach ← gets (fun s => platform_machine (world s));
  let os_name := lower sysname in
  let arch := lower mach in
  let arch' :=
    if String.eqb os_name "darwin" then
      Some (if String.eqb arch "arm64" then "arm64" else "amd64")
    else if String.eqb os_name "linux" then
      Some (if String.eqb arch "aarch64" then "arm64" else "amd64")
    else if String.eqb os_name "windows" then
      Some (if String.eqb arch "x86" then "386" else "amd64")
    else None in
  match arch' with
  | None => raise (OSError "Unsupported operating system")
  | Some a =>
      let binary_dir_name := "vespa-cli_" ++ vespa_version ++ "_" ++ os_name ++ "_" ++ a in
      let binary_path := os_join w (os_join w go_binaries_path binary_dir_name) "bin" in
      let executable_name :=
        if negb (String.eqb os_name "windows") then "vespa" else "vespa.exe" in
      let full_executable_path := os_join w binary_path executable_name in
      ex ← path_exists full_executable_path;
      if (ex : bool) then mret full_executable_path
      else raise (FileNotFoundError ("Binary executable not found: " ++ full_executable_path))
  end.

(** [run_vespa_cli] with [sys.argv] given; the child inherits the standard
    streams and its result is dropped. *)
Definition run_vespa_cli (vespa_version : string) (argv : list string) : M unit :=
  let args := tail argv in
  binary_path ← get_binary_path vespa_version;
  let full_cmd := binary_path :: args in
  _result ← subprocess_run full_cmd;
  mret tt.

End VespaCli.

(* ------------------------------------------------------------------ *)
(** ** Sample worlds for the concrete runs *)

Definition sample_world (sys mach : string) : World := {|
  platform_system := sys;
  platform_machine := mach;
  http := fun _ => Resp 200 "archive-bytes";
  unpack := fun _ c => if String.eqb c "archive-bytes"
                       then Some [("vespa-cli/bin/vespa", "ELF")] else None;
  proc := fun _ => Exited 0;
  json_tag_name := fun _ => Some "v8.299.14";
  cwd := "/home/user";
  read_only := fun _ => false;
  project_root := "/src";
  package_dir := "/src/vespacli"
|}.

Definition state_of (w : World) (fs : gmap string string) (e : gmap string string) : St := {|
  world := w; files := fs; dirs := ∅; env := e; counter := 0; logs := []; trace := []
|}.

Definition outcome_of {A} (m : M A) (s : St) : outcome A := snd (m s).

(** The spec's table of platform pairs (section 4.1 of the spec), to be
    compared with the code. *)
Definition spec_platform_pair (os machine : string) : option (string * string) :=
  if String.eqb os "windows" || String.eqb os "darwin" || String.eqb os "linux" then
    if String.eqb machine "x86_64" || String.eqb machine "amd64" then Some (os, "amd64")
    else if String.eqb machine "arm64" || String.eqb machine "aarch64" then Some (os, "arm64")
    else None
  else None.

Ltac unfold_monad :=
  unfold mbind, mret, M_bind, M_ret, gets, modify, raise, log_, emit, outcome_of in *.

(* ------------------------------------------------------------------ *)
(** ** Traces: the events a program adds

    [extends P m]: run from any state, [m] only appends events to the
    trace, and each appended event satisfies [P]. *)

Definition extends {A} (P : event -> Prop) (m : M A) : Prop :=
  forall s, exists evs, trace (fst (m s)) = app (trace s) evs /\ Forall P evs.

Section Extends.
Context (P : event -> Prop).
Local Open Scope list_scope.

Lemma extends_ret {A} (a : A) : extends P (mret a).
Proof. intros s. exists []. split; [by rewrite app_nil_r | constructor]. Qed.

Lemma extends_raise {A} (e : exc) : extends P (raise (A:=A) e).
Proof. intros s. exists []. split; [by rewrite app_nil_r | constructor]. Qed.

Lemma extends_gets {A} (f : St -> A) : extends P (gets f).
Proof. intros s. exists []. split; [by rewrite app_nil_r | constructor]. Qed.

Lemma extends_modify (f : St -> St) :
  (forall s, trace (f s) = trace s) -> extends P (modify f).
Proof. intros Hf s. exists []. cbn. rewrite Hf. split; [by rewrite app_nil_r | constructor]. Qed.

Lemma extends_emit (ev : event) : P ev -> extends P (emit ev).
Proof. intros Hp s. exists [ev]. split; [reflexivity | by constructor]. Qed.

Lemma extends_bind {A B} (m : M A) (f : A -> M B) :
  extends P m -> (forall a, extends P (f a)) -> extends P (m ≫= f).
Proof.
  intros Hm Hf s. unfold mbind, M_bind.
  destruct (Hm s) as [evs1 [H1 F1]].
  destruct (m s) as [s1 [a | e]] eqn:E; cbn in H1 |- *.
  - destruct (Hf a s1) as [evs2 [H2 F2]]. exists (evs1 ++ evs2).
    rewrite H2, H1, app_assoc. split; [reflexivity | by apply Forall_app].
  - by exists evs1.
Qed.

Lemma extends_try_except {A} (body : M A) catches (handler : exc -> M A) :
  extends P body -> (forall e, extends P (handler e)) ->
  extends P (try_except body catches handler).
Proof.
  intros Hb Hh s. unfold try_except.
  destruct (Hb s) as [evs1 [H1 F1]].
  destruct (body s) as [s1 [a | e]] eqn:E; cbn in H1 |- *.
  - by exists evs1.
  - destruct (catches e).
    + destruct (Hh e s1) as [evs2 [H2 F2]]. exists (evs1 ++ evs2).
      rewrite H2, H1, app_assoc. split; [reflexivity | by apply Forall_app].
    + by exists evs1.
Qed.

Lemma extends_try_finally {A} (body : M A) (fin : M unit) :
  extends P body -> extends P fin -> extends P (try_finally body fin).
Proof.
  intros Hb Hf s. unfold try_finally.
  destruct (Hb s) as [evs1 [H1 F1]].
  destruct (body s) as [s1 r] eqn:E; cbn in H1.
  destruct (Hf s1) as [evs2 [H2 F2]].
  destruct (fin s1) as [s2 [u | e]]; cbn in H2 |- *;
    exists (evs1 ++ evs2); rewrite H2, H1, app_assoc; split; try reflexivity;
    by apply Forall_app.
Qed.

Lemma extends_weaken {A} (Q : event -> Prop) (m : M A) :
  (forall ev, Q ev -> P ev) -> extends Q m -> extends P m.
Proof.
  intros HQ Hm s. destruct (Hm s) as [evs [H F]]. exists evs.
  split; [exact H | by eapply Forall_impl].
Qed.

End Extends.

(** The events a program that only reads and writes files may add. *)
Definition not_get (ev : event) : Prop :=
  match ev with EvGet _ => False | _ => True end.

Ltac extends_step :=
  match goal with
  | |- extends _ (mbind _ _) => apply extends_bind; [ | intro ]
  | |- extends _ (mret _) => apply extends_ret
  | |- extends _ (raise _) => apply extends_raise
  | |- extends _ (gets _) => apply extends_gets
  | |- extends _ (modify _) => apply extends_modify; intro; reflexivity
  | |- extends _ (emit _) => apply extends_emit; cbn; try exact I
  | |- extends _ (try_except _ _ _) => apply extends_try_except; [ | intro ]
  | |- extends _ (try_finally _ _) => apply extends_try_finally
  | |- extends _ (match ?x with _ => _ end) => destruct x
  | |- extends _ (if ?b then _ else _) => destruct b
  | |- extends _ (let '(_, _) := ?x in _) => destruct x
  end.

Ltac extends_tac := repeat extends_step.

Create HintDb extends_db.

(* ------------------------------------------------------------------ *)
(** ** C1: platform resolution *)

Ltac split_string_tests :=
  repeat match goal with
         | |- context [String.eqb ?a ?b] => destruct (String.eqb a b)
         end.

(** Claim C1 (counterexample).  The claim says that every machine string
    outside the table makes platform resolution raise.  In the
    [vespa/cli/installer.py] revision, Linux with machine string ["i686"]
    resolves to [("linux", "386")] and raises nothing. *)
Lemma C1_unknown_machine_not_rejected :
  spec_platform_pair "linux" "i686" = None /\
  outcome_of VespaInstaller.get_os_and_architecture
    (state_of (sample_world "Linux" "i686") ∅ ∅) = Ret ("linux", "386").
Proof. split; vm_compute; reflexivity. Qed.

(** Claim C1 (amended).  In [vespa_client/cli/installer.py],
    [get_os_and_architecture] returns the table's pair for the lowered OS
    name and machine string when the OS is windows, darwin or linux and
    the machine string is in the table {x86_64, amd64 -> amd64; arm64,
    aarch64 -> arm64}, and raises [ValueError] for every other input.  In
    [vespa/cli/installer.py] it raises [ValueError] only for an OS outside
    windows, darwin and linux, and maps a machine string outside the table
    to ["386"]. *)
Theorem C1_platform_resolution (s : St) :
  let os := lower (platform_system (world s)) in
  let machine := lower (platform_machine (world s)) in
  outcome_of VespaClientInstaller.get_os_and_architecture s =
    match spec_platform_pair os machine with
    | Some p => Ret p
    | None => Exn (ValueError ("Unsupported OS or architecture: OS=" ++ os
                               ++ ", Arch=" ++ machine))
    end
  /\
  outcome_of VespaInstaller.get_os_and_architecture s =
    if String.eqb os "windows" || String.eqb os "darwin" || String.eqb os "linux" then
      Ret (os, match spec_platform_pair os machine with
               | Some (_, a) => a
               | None => "386"
               end)
    else Exn (ValueError ("Unsupported OS: " ++ os)).
Proof.
  cbn zeta.
  unfold VespaClientInstaller.get_os_and_architecture,
    VespaInstaller.get_os_and_architecture, spec_platform_pair; unfold_monad.
  destruct s as [w fs ds e n l t]; cbn.
  generalize (lower (platform_system w)) (lower (platform_machine w)).
  intros o m; split; split_string_tests; reflexivity.
Qed.

(** The examples of the spec: ["aarch64"] on Linux resolves to ["arm64"],
    ["x86_64"] to ["amd64"]. *)
Example C1_example_aarch64 :
  outcome_of VespaClientInstaller.get_os_and_architecture
    (state_of (sample_world "Linux" "aarch64") ∅ ∅) = Ret ("linux", "arm64").
Proof. vm_compute. reflexivity. Qed.

Example C1_example_x86_64 :
  outcome_of VespaClientInstaller.get_os_and_architecture
    (state_of (sample_world "Linux" "x86_64") ∅ ∅) = Ret ("linux", "amd64").
Proof. vm_compute. reflexivity. Qed.

(** The library calls add no event other than their own, and only
    [requests_get] adds an [EvGet]. *)
Section Primitives.
Context (P : event -> Prop).
Hypothesis HP : forall ev, not_get ev -> P ev.


Lemma extends_log (l : level) (msg : string) : extends P (log_ l msg).
Proof. unfold log_. extends_tac. Qed.
Lemma extends_raise_for_status st : extends P (raise_for_status st).
Proof. unfold raise_for_status. extends_tac. Qed.
Lemma extends_refuse_read_only p : extends P (refuse_read_only p).
Proof. unfold refuse_read_only. extends_tac. Qed.
Lemma extends_path_exists p : extends P (path_exists p).
Proof. unfold path_exists. extends_tac. Qed.
Lemma extends_environ_get k : extends P (environ_get k).
Proof. unfold environ_get. extends_tac. Qed.
Lemma extends_fresh_name sfx : extends P (fresh_name sfx).
Proof. unfold fresh_name. extends_tac. Qed.
Lemma extends_check_writable p : extends P (check_writable p).
Proof.
  unfold check_writable. extends_tac.
  all: try apply extends_refuse_read_only.
Qed.

Local Hint Resolve extends_log extends_raise_for_status extends_refuse_read_only
  extends_path_exists extends_environ_get extends_fresh_name
  extends_check_writable : extends_db.

Ltac ext := repeat first [solve [eauto with extends_db] | extends_step].

Lemma extends_write_file p c : extends P (write_file p c).
Proof. unfold write_file. ext. apply HP. exact I. Qed.
Lemma extends_read_file p : extends P (read_file p).
Proof. unfold read_file. ext. apply HP. exact I. Qed.
Lemma extends_append_file p c : extends P (append_file p c).
Proof. unfold append_file. ext. apply HP. exact I. Qed.
Lemma extends_os_remove p : extends P (os_remove p).
Proof. unfold os_remove. ext. apply HP. exact I. Qed.
Lemma extends_makedirs p : extends P (makedirs p).
Proof. unfold makedirs. ext. apply HP. exact I. Qed.
Lemma extends_subprocess_run cmd : extends P (subprocess_run cmd).
Proof. unfold subprocess_run. ext; apply HP; exact I. Qed.
Lemma extends_subprocess_run_shell cmd : extends P (subprocess_run_shell cmd).
Proof. unfold subprocess_run_shell. ext; apply HP; exact I. Qed.
Lemma extends_os_chmod_exec p : extends P (os_chmod_exec p).
Proof. unfold os_chmod_exec. ext. apply HP. exact I. Qed.
Lemma extends_os_symlink src dst : extends P (os_symlink src dst).
Proof. unfold os_symlink. ext. apply HP. exact I. Qed.

Local Hint Resolve extends_write_file extends_read_file extends_append_file
  extends_os_remove extends_makedirs extends_subprocess_run
  extends_subprocess_run_shell extends_os_chmod_exec extends_os_symlink : extends_db.

Lemma extends_mkdtemp : extends P mkdtemp.
Proof. unfold mkdtemp. ext. Qed.
Lemma extends_named_temporary_file sfx : extends P (named_temporary_file sfx).
Proof. unfold named_temporary_file. ext. apply HP. exact I. Qed.
Lemma extends_shutil_copy src dst : extends P (shutil_copy src dst).
Proof. unfold shutil_copy. ext. apply HP. exact I. Qed.
Lemma extends_open_archive kind p : extends P (open_archive kind p).
Proof. unfold open_archive. ext. Qed.
Lemma extends_extractall dest ms : extends P (extractall dest ms).
Proof. induction ms as [|[n c] ms IH]; cbn; ext. Qed.

Local Hint Resolve extends_mkdtemp extends_named_temporary_file
  extends_shutil_copy extends_open_archive extends_extractall : extends_db.

Lemma extends_requests_get url : P (EvGet url) -> extends P (requests_get url).
Proof. intros Hu. unfold requests_get. ext. Qed.

Lemma extends_client_extract_file fp ext :
  extends P (VespaClientInstaller.extract_file fp ext).
Proof. unfold VespaClientInstaller.extract_file. ext. Qed.

Lemma extends_client_download_file url ext :
  P (EvGet url) -> extends P (VespaClientInstaller.download_file url ext).
Proof.
  intros Hu. unfold VespaClientInstaller.download_file.
  pose proof (extends_requests_get url Hu). ext.
Qed.

Lemma extends_utils_extract_file fp dest :
  extends P (VespaBinaryDownloader.extract_file fp dest).
Proof. unfold VespaBinaryDownloader.extract_file. ext. Qed.

Lemma extends_utils_ensure_directory_exists d :
  extends P (VespaBinaryDownloader.ensure_directory_exists d).
Proof. unfold VespaBinaryDownloader.ensure_directory_exists. ext. Qed.

Lemma extends_utils_download_file url :
  P (EvGet url) -> extends P (VespaBinaryDownloader.download_file url).
Proof.
  intros Hu. unfold VespaBinaryDownloader.download_file.
  pose proof (extends_requests_get url Hu). ext.
Qed.

End Primitives.

(** An event that is in the trace stays there. *)
Section InTrace.
Local Open Scope list_scope.
Context (ev : event).

Lemma in_trace_extends {A} (m : M A) s :
  extends (fun _ => True) m -> In ev (trace s) -> In ev (trace (fst (m s))).
Proof.
  intros Hm Hin. destruct (Hm s) as [evs [H _]]. rewrite H.
  apply in_or_app. by left.
Qed.

Lemma in_trace_bind_ret {A B} (m : M A) (f : A -> M B) s s1 a :
  m s = (s1, Ret a) -> In ev (trace (fst (f a s1))) ->
  In ev (trace (fst ((m ≫= f) s))).
Proof. intros E H. unfold mbind, M_bind. by rewrite E. Qed.

Lemma in_trace_bind_first {A B} (m : M A) (f : A -> M B) s :
  In ev (trace (fst (m s))) -> (forall a, extends (fun _ => True) (f a)) ->
  In ev (trace (fst ((m ≫= f) s))).
Proof.
  intros H Hf. unfold mbind, M_bind.
  destruct (m s) as [s1 [a | e]]; cbn in *; [ | exact H].
  by apply in_trace_extends.
Qed.

Lemma in_trace_try_except {A} (body : M A) catches (h : exc -> M A) s :
  In ev (trace (fst (body s))) -> (forall e, extends (fun _ => True) (h e)) ->
  In ev (trace (fst (try_except body catches h s))).
Proof.
  intros H Hh. unfold try_except.
  destruct (body s) as [s1 [a | e]]; cbn in *; [exact H | ].
  destruct (catches e); [ | exact H]. by apply in_trace_extends.
Qed.

End InTrace.

Lemma requests_get_in url s : In (EvGet url) (trace (fst (requests_get url s))).
Proof.
  unfold requests_get. unfold_monad. cbn.
  destruct (http (world s) url); cbn; apply in_or_app; right; by left.
Qed.

Lemma utils_ensure_directory_exists_ok d s :
  exists s1, VespaBinaryDownloader.ensure_directory_exists d s = (s1, Ret tt) /\
             world s1 = world s.
Proof.
  unfold VespaBinaryDownloader.ensure_directory_exists, path_exists, makedirs.
  unfold_monad. cbn. destruct (_ || _); cbn; eexists; split; reflexivity.
Qed.


(** The requests a run makes go to [url] only. *)
Definition only_gets (url : string) (ev : event) : Prop :=
  match ev with EvGet u => u = url | _ => True end.

Lemma only_gets_not_get url ev : not_get ev -> only_gets url ev.
Proof. destruct ev; cbn; tauto. Qed.

Lemma named_temporary_file_ok sfx s :
  (forall p, read_only (world s) p = false) ->
  exists s1 p, named_temporary_file sfx s = (s1, Ret p).
Proof.
  intros Hw. unfold named_temporary_file, fresh_name, write_file, refuse_read_only.
  unfold_monad. cbn. rewrite Hw. cbn. eauto.
Qed.

(** [open(path, "w")] succeeds on [path]: no directory is there, the path
    does not end in a separator, its directory exists and the process may
    write it. *)
Definition writable_file (s : St) (path : string) : Prop :=
  (path ∉ dirs s) /\ ends_with_sep (world s) path = false /\
  dir_exists s (os_dirname (world s) path) = true /\ read_only (world s) path = false.

Lemma check_writable_ok p s : writable_file s p -> check_writable p s = (s, Ret tt).
Proof.
  intros (Hd & He & Hp & Hr). unfold check_writable, refuse_read_only. unfold_monad. cbn.
  rewrite (bool_decide_eq_false_2 _ Hd), He. cbn. rewrite Hp. cbn. by rewrite Hr.
Qed.

Lemma check_writable_fails p s :
  ~ writable_file s p -> exists e, check_writable p s = (s, Exn e).
Proof.
  intros Hn. unfold check_writable, refuse_read_only. unfold_monad. cbn.
  destruct (bool_decide (p ∈ dirs s)) eqn:Hd; cbn; [eauto | ].
  destruct (ends_with_sep (world s) p) eqn:He; cbn; [eauto | ].
  destruct (dir_exists s (os_dirname (world s) p)) eqn:Hp; cbn; [ | eauto].
  destruct (read_only (world s) p) eqn:Hr; cbn; [eauto | ].
  exfalso. apply Hn. apply bool_decide_eq_false_1 in Hd. by repeat split.
Qed.

Ltac ext_true :=
  repeat first
    [ solve [eauto using extends_log, extends_client_extract_file,
               extends_utils_extract_file, extends_mkdtemp, extends_os_remove,
               extends_write_file, extends_raise_for_status, extends_read_file,
               extends_open_archive, extends_extractall]
    | extends_step ].

(* ------------------------------------------------------------------ *)
(** ** C2: the release URL *)


Definition darwin_arm64 : installer :=
  {| os_name := "darwin"; arch := "arm64"; vespa_executable_name := "vespa" |}.


(* ------------------------------------------------------------------ *)
(** ** C3: removal of the downloaded archive *)

(** [extract_file] of [vespa_client] on an archive whose bytes are not an
    archive: the error is logged and re-raised, and the archive is gone. *)
Lemma client_extract_file_archive_error fp ext s c :
  files s !! fp = Some c ->
  (ext = "tar.gz" /\ unpack (world s) "tar" c = None \/
   ext = "zip" /\ unpack (world s) "zip" c = None) ->
  let '(s', r) := VespaClientInstaller.extract_file fp ext s in
  r = Exn (ReadError fp) /\ files s' !! fp = None /\
  In (Error, "Failed to extract file " ++ fp ++ ": " ++ exc_str (ReadError fp)) (logs s').
Proof.
  intros Hf [[-> Hu] | [-> Hu]];
    unfold VespaClientInstaller.extract_file, mkdtemp, fresh_name, try_finally,
      try_except, open_archive, read_file, os_remove;
    unfold_monad; cbn; rewrite Hf; cbn; rewrite Hu; cbn; rewrite Hf; cbn;
    (split; [reflexivity | split; [apply lookup_delete_eq | ]]);
    apply in_or_app; right; by left.
Qed.

Definition corrupt_archive_path : string :=
  "/src/vespacli/go-binaries/vespa-cli_8.299.14_linux_amd64.tar.gz".

Definition corrupt_archive_state : St :=
  state_of (sample_world "Linux" "x86_64") {[ corrupt_archive_path := "garbage" ]} ∅.

(** Claim C3 (code bug).  The batch downloader's [extract_file] has no
    [try ... finally]: on a ".tar.gz" file whose bytes are not an archive,
    [tarfile.open] raises, the archive is not removed and nothing is logged
    at error level; the sibling [extract_file] of [vespa_client] removes
    it and logs the error ([client_extract_file_archive_error]). *)
Theorem C3_utils_extract_keeps_archive :
  let '(s', r) := VespaBinaryDownloader.extract_file corrupt_archive_path
                    "/src/vespacli/go-binaries" corrupt_archive_state in
  r = Exn (ReadError corrupt_archive_path) /\
  files s' !! corrupt_archive_path = Some "garbage" /\
  map fst (logs s') = [Info].
Proof. vm_compute. repeat split. Qed.

(* ------------------------------------------------------------------ *)
(** ** C4: checksum verification *)

Definition sample_archive : string := "vespa-cli_8.299.14_linux_amd64.tar.gz".
Definition sample_archive_bytes : string := "archive-bytes".
Definition sample_digest : string := Eval vm_compute in Sha256.hexdigest sample_archive_bytes.

Definition zero_digest : string :=
  "0000000000000000000000000000000000000000000000000000000000000000".

(** A manifest with a signature entry before the archive's own line. *)
Definition manifest_with_sig : list string :=
  [zero_digest ++ "  " ++ sample_archive ++ ".sig" ++ nl;
   sample_digest ++ "  " ++ sample_archive].

Definition manifest_plain : list string :=
  [zero_digest ++ "  vespa-cli_8.299.14_darwin_arm64.tar.gz" ++ nl;
   sample_digest ++ "  " ++ sample_archive].

Definition archive_state : St :=
  state_of (sample_world "Linux" "x86_64") {[ sample_archive := sample_archive_bytes ]} ∅.

(** Claim C4 (code bug).  The manifest has the line
    "<digest>  vespa-cli_8.299.14_linux_amd64.tar.gz" whose digest is the
    file's SHA-256, yet [verify_checksum] raises: it selects lines by
    [filename in line], so the line of the ".sig" file, which also
    contains the file name, is checked too and its digest differs.  The
    code's own comment gives the format "<checksum> <filename>", whose
    file name field is not the archive's here. *)
Lemma C4_substring_line_breaks_verification :
  In (sample_digest ++ "  " ++ sample_archive) manifest_with_sig /\
  Sha256.hexdigest sample_archive_bytes = sample_digest /\
  outcome_of (VespaBinaryDownloader.verify_checksum sample_archive manifest_with_sig)
    archive_state =
    Exn (Exception ("Checksum verification failed for " ++ sample_archive)).
Proof.
  split; [cbn; right; left; reflexivity | ].
  split; vm_compute; reflexivity.
Qed.

(* ------------------------------------------------------------------ *)
(** ** C5: the copy step when the target exists *)

(** Events that change a file. *)
Definition no_file_change (ev : event) : Prop :=
  match ev with
  | EvCopy _ _ | EvWrite _ | EvAppend _ | EvRemove _ | EvSymlink _ _ => False
  | _ => True
  end.

Definition leaves_files (s s' : St) : Prop :=
  files s' = files s /\
  exists evs, trace s' = app (trace s) evs /\ Forall no_file_change evs.

Ltac leaves_files_tac :=
  split; [reflexivity | ];
  first [ exists []; split; [cbn; by rewrite app_nil_r | constructor]
        | eexists; split; [rewrite <- ?app_assoc; reflexivity | cbn; repeat constructor] ].

(** Claim C5.  When [USERPROFILE] is set and the target executable
    [%USERPROFILE%\bin\vespa(.exe)] already exists, [create_alias_windows]
    (in both installer revisions) copies, writes, moves or removes no
    file: the file system is unchanged and the events it adds include no
    copy. *)
Theorem C5_create_alias_windows_no_copy (self : installer) (vespa_bin_path profile : string) (s : St) :
  env s !! "USERPROFILE" = Some profile ->
  is_Some (files s !! nt_join (nt_join profile "bin") (vespa_executable_name self)) ->
  leaves_files s (fst (VespaClientInstaller.create_alias_windows self vespa_bin_path s)) /\
  leaves_files s (fst (VespaInstaller.create_alias_windows self vespa_bin_path s)).
Proof.
  intros Henv Hex.
  unfold VespaClientInstaller.create_alias_windows, VespaInstaller.create_alias_windows,
    VespaInstaller.ensure_directory_exists, VespaClientInstaller.ensure_directory_exists,
    VespaInstaller.add_to_path, VespaInstaller.update_system_path_windows,
    try_except, subprocess_run, path_exists, makedirs, environ_get;
    unfold_monad; cbn.
  rewrite Henv. cbn.
  set (t := nt_join (nt_join profile "bin") (vespa_executable_name self)) in *.
  destruct (bool_decide (is_Some (files s !! nt_dirname t)));
    destruct (bool_decide (nt_dirname t ∈ dirs s)); cbn;
    rewrite (bool_decide_eq_true_2 _ Hex); cbn;
    (split; [leaves_files_tac | ]);
    (destruct (String.eqb (os_name self) "windows"); cbn; [ | leaves_files_tac]);
    (destruct (proc _ _) as [code | ]; cbn; [destruct (Z.eqb code 0); cbn | ]);
    leaves_files_tac.
Qed.

Definition windows_installer : installer :=
  {| os_name := "windows"; arch := "amd64"; vespa_executable_name := "vespa.exe" |}.

Definition installed_windows_state : St :=
  state_of (sample_world "Windows" "AMD64")
    {[ "C:\Users\u\bin\vespa.exe" := "old-exe"; "C:\tmp\vespa.exe" := "new-exe" ]}
    {[ "USERPROFILE" := "C:\Users\u" ]}.

Lemma C5_create_alias_windows_no_copy_witness :
  env installed_windows_state !! "USERPROFILE" = Some "C:\Users\u" /\
  is_Some (files installed_windows_state !! "C:\Users\u\bin\vespa.exe") /\
  leaves_files installed_windows_state
    (fst (VespaClientInstaller.create_alias_windows windows_installer "C:\tmp\vespa.exe"
            installed_windows_state)).
Proof.
  split; [reflexivity | split; [eexists; reflexivity | ]].
  refine (proj1 (C5_create_alias_windows_no_copy windows_installer "C:\tmp\vespa.exe"
                  "C:\Users\u" installed_windows_state eq_refl _)).
  vm_compute. eexists. reflexivity.
Defined.

(* ------------------------------------------------------------------ *)
(** ** C6: download failures *)

(** The exception [requests] raises for a failed response. *)
Definition request_failure (url : string) (r : response) : option exc :=
  match r with
  | RespConnError => Some (ConnectionError url)
  | Resp st _ =>
      if (400 <=? st)%nat && (st <? 600)%nat then Some (HTTPError st) else None
  end.

Local Arguments Nat.leb : simpl never.
Local Arguments Nat.ltb : simpl never.

(** Claim C6.  When the request of [download_file] fails (connection error
    or an error status), [download_file] of both installer revisions logs
    the failure at error level as its last log entry and raises the same
    [RequestException] to its caller, so it returns no path.  (The
    temporary file is created first; the statement assumes it can be.) *)
Theorem C6_download_file_reraises (url ext : string) (s : St) (e : exc) :
  (forall p, read_only (world s) p = false) ->
  request_failure url (http (world s) url) = Some e ->
  (let '(s', r) := VespaClientInstaller.download_file url ext s in
   r = Exn e /\ last (logs s') = Some (Error, "Failed to download file: " ++ exc_str e)) /\
  (let '(s', r) := VespaInstaller.download_file url ext s in
   r = Exn e /\ last (logs s') = Some (Error, "Failed to download file")).
Proof.
  intros Hw Hf. unfold request_failure in Hf.
  destruct (http (world s) url) as [ | st body] eqn:Eh;
    [ | destruct ((400 <=? st)%nat && (st <? 600)%nat) eqn:Hle; [ | discriminate]];
    inversion Hf; subst;
    unfold VespaClientInstaller.download_file, VespaInstaller.download_file,
      named_temporary_file, fresh_name, refuse_read_only, try_except,
      requests_get, raise_for_status; unfold_monad; cbn;
    rewrite !Hw; cbn; rewrite Eh; cbn; try rewrite Hle; cbn;
    (split; split; [reflexivity | by rewrite last_snoc | reflexivity | by rewrite last_snoc]).
Qed.

Definition offline_world : World := {|
  platform_system := "Linux"; platform_machine := "x86_64";
  http := fun _ => RespConnError;
  unpack := fun _ _ => None; proc := fun _ => Exited 0;
  json_tag_name := fun _ => None; cwd := "/"; read_only := fun _ => false;
  project_root := "/src"; package_dir := "/src/vespacli"
|}.

Lemma C6_download_file_reraises_witness :
  let s := state_of offline_world ∅ ∅ in
  let url := "https://example.com/vespa-cli.tar.gz" in
  (let '(s', r) := VespaClientInstaller.download_file url "tar.gz" s in
   r = Exn (ConnectionError url) /\
   last (logs s') = Some (Error, "Failed to download file: " ++ exc_str (ConnectionError url))) /\
  (let '(s', r) := VespaInstaller.download_file url "tar.gz" s in
   r = Exn (ConnectionError url) /\ last (logs s') = Some (Error, "Failed to download file")).
Proof.
  apply C6_download_file_reraises; reflexivity.
Defined.

(* ------------------------------------------------------------------ *)
(** ** C7: failures while updating PATH or the shell profile *)

Lemma first_existing_ok home profiles s :
  exists s' o, VespaClientInstaller.first_existing home profiles s = (s', Ret o).
Proof.
  revert s. induction profiles as [|p ps IH]; intros s; cbn; unfold_monad.
  - eauto.
  - unfold path_exists. unfold_monad. cbn.
    destruct (_ || _); cbn; [eauto | apply IH].
Qed.

(** With [HOME] set, [create_alias_unix] of [vespa_client] returns
    normally: a missing profile and a refused append are logged. *)
Lemma client_create_alias_unix_returns bin s home :
  env s !! "HOME" = Some home ->
  outcome_of (VespaClientInstaller.create_alias_unix bin) s = Ret tt.
Proof.
  intros Hh.
  unfold VespaClientInstaller.create_alias_unix, VespaClientInstaller.detect_shell_profile,
    environ_get, outcome_of.
  unfold mbind, M_bind, gets. cbv beta. rewrite Hh.
  destruct (first_existing_ok home VespaClientInstaller.shell_profiles s) as [s1 [o E]].
  rewrite E.
  destruct o as [sp | ]; cbn; [ | reflexivity].
  unfold try_except, append_file, check_writable, refuse_read_only. unfold_monad. cbn.
  destruct (_ || ends_with_sep _ _); cbn; [reflexivity | ].
  destruct (dir_exists _ _); cbn; [ | reflexivity].
  destruct (read_only (world s1) sp); reflexivity.
Qed.

(** [try: ... except Exception: log] lets only a non-[Exception] through. *)
Lemma try_except_exception_returns (body : M unit) (msg : exc -> string) s :
  outcome_of (try_except body is_exception (fun e => log_ Error (msg e))) s = Ret tt \/
  exists c, outcome_of (try_except body is_exception (fun e => log_ Error (msg e))) s
            = Exn (SystemExit c).
Proof.
  unfold try_except, outcome_of.
  destruct (body s) as [s1 [[] | e]]; [by left | ].
  destruct e; cbn; unfold_monad; cbn; [left; reflexivity .. | right; eauto].
Qed.

Definition setx_cmd (new_path : string) : list string :=
  ["setx"; "PATH"; "%PATH%;" ++ new_path].

Definition no_setx_world : World := {|
  platform_system := "Windows"; platform_machine := "AMD64";
  http := fun _ => RespConnError;
  unpack := fun _ _ => None; proc := fun _ => NotLaunched;
  json_tag_name := fun _ => None; cwd := "C:\Users\u"; read_only := fun _ => false;
  project_root := "C:\src"; package_dir := "C:\src\vespacli"
|}.

(** Claim C7 (code bug).  Updating PATH on Windows: [vespa_client] runs
    [setx] through the shell without [check], so [update_system_path_windows]
    returns normally and logs success whatever [setx] does, a failure
    included.  [vespa/cli/installer.py] logs a non-zero exit of [setx] as an
    error and swallows it, but catches only [subprocess.SubprocessError]:
    when [setx] cannot be started, the [OSError] ([FileNotFoundError])
    propagates out of [update_system_path_windows].  With [HOME] set,
    [create_alias_unix] of [vespa_client] never raises: a missing profile
    or a failed append is logged.  The [run] of both revisions catches and
    logs every [Exception]. *)
Theorem C7_path_update_failures (new_path : string) (s : St) :
  (outcome_of (VespaClientInstaller.update_system_path_windows new_path) s = Ret tt /\
   last (logs (fst (VespaClientInstaller.update_system_path_windows new_path s)))
     = Some (Info, "Successfully added Vespa CLI to system PATH.")) /\
  (outcome_of (VespaInstaller.update_system_path_windows new_path) s =
     match proc (world s) (setx_cmd new_path) with
     | Exited _ => Ret tt
     | NotLaunched => Exn (OSError "setx")
     end) /\
  (forall c, proc (world s) (setx_cmd new_path) = Exited c -> c <> 0%Z ->
     last (logs (fst (VespaInstaller.update_system_path_windows new_path s)))
       = Some (Error, "Failed to update system PATH")) /\
  (forall bin home, env s !! "HOME" = Some home ->
     outcome_of (VespaClientInstaller.create_alias_unix bin) s = Ret tt) /\
  (forall self,
     (outcome_of (VespaClientInstaller.run self) s = Ret tt \/
      exists c, outcome_of (VespaClientInstaller.run self) s = Exn (SystemExit c)) /\
     (outcome_of (VespaInstaller.run self) s = Ret tt \/
      exists c, outcome_of (VespaInstaller.run self) s = Exn (SystemExit c))).
Proof.
  unfold setx_cmd.
  split; [ | split; [ | split; [ | split]]].
  - unfold VespaClientInstaller.update_system_path_windows, subprocess_run_shell.
    unfold_monad. cbn.
    destruct (is_windows (world s)); cbn;
      (destruct (proc _ _); cbn; (split; [reflexivity | by rewrite last_snoc])).
  - unfold VespaInstaller.update_system_path_windows, subprocess_run, try_except.
    unfold_monad. cbn. destruct (proc _ _) as [c | ]; cbn; [ | reflexivity].
    destruct (Z.eqb c 0); reflexivity.
  - intros c Hc Hne. unfold VespaInstaller.update_system_path_windows, subprocess_run,
      try_except. unfold_monad. cbn. rewrite Hc. cbn.
    apply Z.eqb_neq in Hne. rewrite Hne. cbn. by rewrite last_snoc.
  - intros bin home Hh. by apply (client_create_alias_unix_returns bin s home).
  - intros self. split; apply try_except_exception_returns.
Qed.

Definition unix_home_state : St :=
  state_of (sample_world "Linux" "x86_64") {[ "/home/u/.bashrc" := "# rc" ]}
    {[ "HOME" := "/home/u" ]}.

(** On Windows without [setx]: [vespa_client] reports success, the
    [vespa/cli] revision raises [OSError] from the launch. *)
Lemma C7_path_update_failures_witness :
  outcome_of (VespaClientInstaller.update_system_path_windows "C:\Users\u\bin")
    (state_of no_setx_world ∅ ∅) = Ret tt /\
  last (logs (fst (VespaClientInstaller.update_system_path_windows "C:\Users\u\bin"
                     (state_of no_setx_world ∅ ∅))))
    = Some (Info, "Successfully added Vespa CLI to system PATH.") /\
  outcome_of (VespaInstaller.update_system_path_windows "C:\Users\u\bin")
    (state_of no_setx_world ∅ ∅) = Exn (OSError "setx") /\
  outcome_of (VespaClientInstaller.create_alias_unix "/opt/vespa") unix_home_state = Ret tt.
Proof.
  destruct (C7_path_update_failures "C:\Users\u\bin" (state_of no_setx_world ∅ ∅))
    as [Hc [Hi _]].
  split; [exact (proj1 Hc) | split; [exact (proj2 Hc) | split; [exact Hi | ]]].
  apply (proj1 (proj2 (proj2 (proj2 (C7_path_update_failures "C:\Users\u\bin"
           unix_home_state)))) "/opt/vespa" "/home/u").
  reflexivity.
Defined.

(* ------------------------------------------------------------------ *)
(** ** C8: the console entry point *)

(** Claim C8.  Once [get_binary_path] has found the binary [bp],
    [run_vespa_cli] runs [bp] followed by [sys.argv[1:]] unchanged, and
    whatever the exit code [c] of the child, it returns [None] (the same
    final state and result for every [c]), so the Python process exits
    with status 0. *)
Theorem C8_run_vespa_cli_drops_status (vespa_version : string) (argv : list string)
    (s s1 : St) (bp : string) (c : Z) :
  VespaCli.get_binary_path vespa_version s = (s1, Ret bp) ->
  proc (world s1) (bp :: tail argv) = Exited c ->
  VespaCli.run_vespa_cli vespa_version argv s =
    (set_trace (trace s1 ++ [EvRun (bp :: tail argv)])%list s1, Ret tt) /\
  exit_status (snd (VespaCli.run_vespa_cli vespa_version argv s)) = 0%Z.
Proof.
  intros Hb Hp.
  assert (E : VespaCli.run_vespa_cli vespa_version argv s =
                (set_trace (trace s1 ++ [EvRun (bp :: tail argv)])%list s1, Ret tt)).
  { unfold VespaCli.run_vespa_cli, subprocess_run. unfold mbind, M_bind.
    rewrite Hb. unfold_monad. cbn. rewrite Hp. reflexivity. }
  split; [exact E | rewrite E; reflexivity].
Qed.

Definition cli_world : World := {|
  platform_system := "Linux"; platform_machine := "x86_64";
  http := fun _ => RespConnError;
  unpack := fun _ _ => None; proc := fun _ => Exited 3;
  json_tag_name := fun _ => None; cwd := "/home/user"; read_only := fun _ => false;
  project_root := "/src"; package_dir := "/src/vespacli"
|}.

Definition cli_binary : string :=
  "/src/vespacli/go-binaries/vespa-cli_8.299.14_linux_amd64/bin/vespa".

Definition cli_state : St := state_of cli_world {[ cli_binary := "ELF" ]} ∅.

Lemma C8_run_vespa_cli_drops_status_witness :
  VespaCli.get_binary_path "8.299.14" cli_state = (cli_state, Ret cli_binary) /\
  proc (world cli_state) (cli_binary :: tail ["vespa"; "query"; "yql=select"]) = Exited 3 /\
  VespaCli.run_vespa_cli "8.299.14" ["vespa"; "query"; "yql=select"] cli_state =
    (set_trace (trace cli_state ++ [EvRun (cli_binary :: tail ["vespa"; "query"; "yql=select"])])%list
       cli_state, Ret tt).
Proof.
  assert (Hb : VespaCli.get_binary_path "8.299.14" cli_state = (cli_state, Ret cli_binary))
    by (vm_compute; reflexivity).
  split; [exact Hb | split; [reflexivity | ]].
  exact (proj1 (C8_run_vespa_cli_drops_status "8.299.14" ["vespa"; "query"; "yql=select"]
                  cli_state cli_state cli_binary 3 Hb eq_refl)).
Defined.

(* ------------------------------------------------------------------ *)
(** ** C9: checksum verification in the batch downloader's [run] *)

Lemma bind_ret_inv {A B} (m : M A) (f : A -> M B) s s' b :
  (m ≫= f) s = (s', Ret b) ->
  exists s1 a, m s = (s1, Ret a) /\ f a s1 = (s', Ret b).
Proof.
  unfold mbind, M_bind. destruct (m s) as [s1 [a | e]]; [eauto | discriminate].
Qed.

Lemma os_remove_ret p s s' : os_remove p s = (s', Ret tt) -> files s' !! p = None.
Proof.
  unfold os_remove. unfold_monad. cbn.
  destruct (files s !! p); cbn; [ | discriminate].
  intros H. inversion H; subst. cbn. apply lookup_delete_eq.
Qed.

Lemma utils_download_file_ret url s s' fp :
  VespaBinaryDownloader.download_file url s = (s', Ret fp) ->
  fp = posix_join (VespaBinaryDownloader.INSTALLATION_DIR (world s))
                  (last_item (split_on "/"%char url)).
Proof.
  unfold VespaBinaryDownloader.download_file. intros H.
  apply bind_ret_inv in H as (s1 & [] & E1 & H).
  unfold log_, modify in E1. inversion E1; subst s1.
  apply bind_ret_inv in H as (s2 & dir & E2 & H).
  unfold gets in E2. inversion E2; subst s2 dir.
  apply bind_ret_inv in H as (s3 & [st body] & _ & H).
  apply bind_ret_inv in H as (s4 & [] & _ & H).
  apply bind_ret_inv in H as (s5 & [] & _ & H).
  apply bind_ret_inv in H as (s6 & [] & _ & H).
  by inversion H.
Qed.

Lemma utils_extract_file_ret fp d s s' :
  VespaBinaryDownloader.extract_file fp d s = (s', Ret tt) -> files s' !! fp = None.
Proof.
  unfold VespaBinaryDownloader.extract_file. intros H.
  apply bind_ret_inv in H as (s1 & [] & _ & H).
  apply bind_ret_inv in H as (s2 & [] & _ & H).
  exact (os_remove_ret fp s2 s' H).
Qed.

Lemma verify_lines_no_match filename lines s :
  Forall (fun line => str_contains filename line = false) lines ->
  VespaBinaryDownloader.verify_lines filename lines s = (s, Ret tt).
Proof.
  revert s. induction lines as [|line lines IH]; intros s HF; [reflexivity | ].
  inversion HF as [|? ? Hl Hr]; subst. cbn. rewrite Hl. unfold_monad. cbn.
  by apply IH.
Qed.

(** Claim C9.  When no line of the manifest contains [filename],
    [verify_checksum] only logs and returns normally, without reading the
    file or computing a digest.  In [run], the value passed as [filename]
    is what [download_and_extract_cli] returned: the archive's full path
    under [INSTALLATION_DIR] (not the bare file name of the manifest
    lines), and that file has already been removed by [extract_file]. *)
Theorem C9_checksum_vacuous_in_run :
  (forall filename checksum_content s,
     Forall (fun line => str_contains filename line = false) checksum_content ->
     VespaBinaryDownloader.verify_checksum filename checksum_content s =
       (set_logs (logs s ++ [(Info, ("Verifying checksum for " ++ filename)%string)])%list s, Ret tt)) /\
  (forall version os archname s s' file_path,
     VespaBinaryDownloader.download_and_extract_cli version os archname s = (s', Ret file_path) ->
     file_path = posix_join (VespaBinaryDownloader.INSTALLATION_DIR (world s))
                   (last_item (split_on "/"%char
                      (release_url version os archname
                         (if String.eqb os "windows" then "zip" else "tar.gz")))) /\
     files s' !! file_path = None).
Proof.
  split.
  - intros filename lines s HF. unfold VespaBinaryDownloader.verify_checksum.
    unfold mbind at 1, M_bind at 1. unfold log_, modify at 1.
    by apply verify_lines_no_match.
  - intros version os archname s s' fp H.
    unfold VespaBinaryDownloader.download_and_extract_cli in H.
    apply bind_ret_inv in H as (s1 & dir & E1 & H).
    unfold gets in E1. inversion E1; subst s1 dir.
    apply bind_ret_inv in H as (s2 & [] & E2 & H).
    destruct (utils_ensure_directory_exists_ok
                (VespaBinaryDownloader.INSTALLATION_DIR (world s)) s) as [s2' [E2' Hw]].
    rewrite E2' in E2. inversion E2; subst s2'.
    apply bind_ret_inv in H as (s3 & fp' & E3 & H).
    apply utils_download_file_ret in E3. rewrite Hw in E3.
    apply bind_ret_inv in H as (s4 & [] & E4 & H).
    apply utils_extract_file_ret in E4.
    inversion H; subst. split; [reflexivity | exact E4].
Qed.

Definition full_archive_path : string :=
  "/src/vespacli/go-binaries/vespa-cli_8.299.14_linux_amd64.tar.gz".

Lemma C9_checksum_vacuous_in_run_witness :
  let s := state_of (sample_world "Linux" "x86_64") ∅ ∅ in
  let s' := fst (VespaBinaryDownloader.download_and_extract_cli "8.299.14" "linux" "amd64" s) in
  files s' !! full_archive_path = None /\
  VespaBinaryDownloader.verify_checksum full_archive_path manifest_plain s' =
    (set_logs (logs s' ++ [(Info, ("Verifying checksum for " ++ full_archive_path)%string)])%list s',
     Ret tt).
Proof.
  cbv zeta.
  assert (E : VespaBinaryDownloader.download_and_extract_cli "8.299.14" "linux" "amd64"
                (state_of (sample_world "Linux" "x86_64") ∅ ∅) =
              (fst (VespaBinaryDownloader.download_and_extract_cli "8.299.14" "linux" "amd64"
                      (state_of (sample_world "Linux" "x86_64") ∅ ∅)), Ret full_archive_path))
    by (vm_compute; reflexivity).
  split.
  - exact (proj2 (proj2 C9_checksum_vacuous_in_run _ _ _ _ _ _ E)).
  - apply (proj1 C9_checksum_vacuous_in_run). vm_compute. repeat constructor.
Defined.

(** Claim C10.  Once the latest remote version [new_version] has been
    retrieved, the version-check script exits with status 0 exactly when
    [new_version] differs from the bundled [vespa_version], and with
    status 1 when the two strings are equal.  A failed retrieval ends the
    script through an uncaught exception, that is with status 1 as well. *)
Theorem C10_exit_status_signals_newer (vespa_version : string) (s s1 : St) :
  (forall new_version,
     VespaBinaryDownloader.get_latest_version s = (s1, Ret new_version) ->
     exit_status (snd (CheckLatestVersion.main vespa_version s)) =
       if String.eqb new_version vespa_version then 1%Z else 0%Z) /\
  (forall e,
     VespaBinaryDownloader.get_latest_version s = (s1, Exn e) ->
     is_exception e = true ->
     exit_status (snd (CheckLatestVersion.main vespa_version s)) = 1%Z).
Proof.
  split.
  - intros new_version E. unfold CheckLatestVersion.main.
    unfold mbind at 1, M_bind at 1. rewrite E.
    destruct (String.eqb new_version vespa_version); reflexivity.
  - intros e E He. unfold CheckLatestVersion.main.
    unfold mbind at 1, M_bind at 1. rewrite E.
    destruct e; try reflexivity. discriminate.
Qed.

Definition latest_world (tag : string) : World :=
  {| platform_system := "Linux"; platform_machine := "x86_64";
     http := fun _ => Resp 200 "{}";
     unpack := fun _ _ => None;
     proc := fun _ => Exited 0;
     json_tag_name := fun _ => Some tag;
     cwd := "/src"; read_only := fun _ => false;
     project_root := "/src"; package_dir := "/src/vespacli" |}.

Lemma C10_exit_status_signals_newer_witness :
  exit_status (snd (CheckLatestVersion.main "8.299.14"
                      (state_of (latest_world "v8.300.1") ∅ ∅))) = 0%Z /\
  exit_status (snd (CheckLatestVersion.main "8.299.14"
                      (state_of (latest_world "v8.299.14") ∅ ∅))) = 1%Z.
Proof.
  split.
  - refine (proj1 (C10_exit_status_signals_newer "8.299.14"
             (state_of (latest_world "v8.300.1") ∅ ∅)
             (fst (VespaBinaryDownloader.get_latest_version
                     (state_of (latest_world "v8.300.1") ∅ ∅)))) "8.300.1" _).
    vm_compute. reflexivity.
  - refine (proj1 (C10_exit_status_signals_newer "8.299.14"
             (state_of (latest_world "v8.299.14") ∅ ∅)
             (fst (VespaBinaryDownloader.get_latest_version
                     (state_of (latest_world "v8.299.14") ∅ ∅)))) "8.299.14" _).
    vm_compute. reflexivity.
Defined.

(** The digest of the model agrees with [hashlib] on the FIPS 180-4
    example message ["abc"]. *)
Lemma sha256_abc :
  Sha256.hexdigest "abc" =
    "ba7816bf8f01cfea414140de5dae2223b00361a396177a9cb410ff61f20015ad".
Proof. vm_compute. reflexivity. Qed.

(* ------------------------------------------------------------------ *)
(** ** The requests of the batch downloader *)

(** The URLs of the [EvGet] events of a trace segment, in order. *)
Fixpoint get_urls (evs : list event) : list string :=
  match evs with
  | [] => []
  | EvGet u :: evs' => u :: get_urls evs'
  | _ :: evs' => get_urls evs'
  end.

(** [requests m us]: run from any state, [m] appends events whose HTTP
    requests are a prefix of [us], and all of [us] when [m] returns. *)
Definition requests {A} (m : M A) (us : list string) : Prop :=
  forall s, exists evs,
    trace (fst (m s)) = (trace s ++ evs)%list /\
    get_urls evs `prefix_of` us /\
    (forall a, snd (m s) = Ret a -> get_urls evs = us).

Lemma get_urls_app evs1 evs2 :
  get_urls (evs1 ++ evs2)%list = (get_urls evs1 ++ get_urls evs2)%list.
Proof. induction evs1 as [|[] evs IH]; cbn; try rewrite IH; reflexivity. Qed.

Lemma get_urls_not_get evs : Forall not_get evs -> get_urls evs = [].
Proof. induction 1 as [|[] evs Hx _ IH]; cbn in *; tauto. Qed.

Lemma requests_extends {A} (m : M A) : extends not_get m -> requests m [].
Proof.
  intros Hm s. destruct (Hm s) as [evs [H F]]. exists evs.
  rewrite (get_urls_not_get evs F). split; [exact H | split; [reflexivity | done]].
Qed.

Lemma requests_bind {A B} (m : M A) (f : A -> M B) us1 us2 us :
  requests m us1 -> (forall a, requests (f a) us2) -> us = (us1 ++ us2)%list ->
  requests (m ≫= f) us.
Proof.
  intros Hm Hf -> s. unfold mbind, M_bind.
  destruct (Hm s) as [evs1 [H1 [P1 R1]]].
  destruct (m s) as [s1 [a | e]]; cbn in H1, R1 |- *.
  - destruct (Hf a s1) as [evs2 [H2 [P2 R2]]]. exists (evs1 ++ evs2)%list.
    rewrite H2, H1, get_urls_app, (R1 a eq_refl), app_assoc.
    split; [reflexivity | split; [by apply prefix_app | ]].
    intros b Hb. by rewrite (R2 b Hb).
  - exists evs1. split; [exact H1 | split; [by apply prefix_app_r | discriminate]].
Qed.

Lemma requests_requests_get url : requests (requests_get url) [url].
Proof.
  intros s. exists [EvGet url]. unfold requests_get. unfold_monad. cbn.
  destruct (http (world s) url); cbn; (split; [reflexivity | split; [reflexivity | done]]).
Qed.

Lemma extends_verify_lines filename lines :
  extends not_get (VespaBinaryDownloader.verify_lines filename lines).
Proof.
  induction lines as [|line lines IH]; cbn; extends_tac; try exact IH;
    unfold VespaBinaryDownloader.first_field in *; extends_tac;
    first [ apply extends_read_file | apply extends_log ]; tauto.
Qed.

Ltac ext_ng :=
  first [ eapply extends_log | eapply extends_raise_for_status | eapply extends_read_file
        | eapply extends_write_file | eapply extends_os_remove
        | eapply extends_utils_extract_file
        | eapply extends_utils_ensure_directory_exists
        | apply extends_verify_lines ]; try tauto.

Ltac req_step :=
  match goal with
  | |- requests (mbind _ _) _ => eapply requests_bind; [ | intro | ]
  | |- requests (requests_get _) _ => apply requests_requests_get
  | |- requests (mret _) _ => apply requests_extends, extends_ret
  | |- requests (raise _) _ => apply requests_extends, extends_raise
  | |- requests (gets _) _ => apply requests_extends, extends_gets
  | |- requests (match ?x with _ => _ end) _ => destruct x
  | |- requests (if ?b then _ else _) _ => destruct b
  | |- requests _ _ => apply requests_extends; ext_ng
  end.

Lemma requests_utils_download_file url :
  requests (VespaBinaryDownloader.download_file url) [url].
Proof.
  unfold VespaBinaryDownloader.download_file. cbv zeta.
  repeat req_step; reflexivity.
Qed.

Definition archive_ext (os : string) : string :=
  if String.eqb os "windows" then "zip" else "tar.gz".

Lemma requests_utils_download_and_extract_cli version os arch :
  requests (VespaBinaryDownloader.download_and_extract_cli version os arch)
           [release_url version os arch (archive_ext os)].
Proof.
  unfold VespaBinaryDownloader.download_and_extract_cli. cbv zeta.
  eapply requests_bind; [ req_step | intro | ].
  eapply requests_bind; [ req_step | intro | ].
  eapply requests_bind; [ apply requests_utils_download_file | intro | ].
  all: repeat req_step; reflexivity.
Qed.

Lemma requests_for_archs version os archs content :
  requests (VespaBinaryDownloader.for_archs version os archs content)
           (map (fun a => release_url version os a (archive_ext os)) archs).
Proof.
  induction archs as [|a archs IH]; cbn [VespaBinaryDownloader.for_archs map]; [req_step | ].
  eapply requests_bind; [ apply requests_utils_download_and_extract_cli | intro | reflexivity].
  eapply requests_bind; [ | intro; exact IH | ].
  - apply requests_extends. unfold VespaBinaryDownloader.verify_checksum.
    apply extends_bind; [ext_ng | intro; ext_ng].
  - reflexivity.
Qed.

(** The archives of [VALID_OS_ARCH], in the order of the table. *)
Definition archive_urls (version : string) : list string :=
  List.concat (map (fun '(os, archs) =>
                 map (fun a => release_url version os a (archive_ext os)) archs)
              VespaBinaryDownloader.VALID_OS_ARCH).

Lemma requests_for_platforms version table content :
  requests (VespaBinaryDownloader.for_platforms version table content)
           (List.concat (map (fun '(os, archs) =>
                           map (fun a => release_url version os a (archive_ext os)) archs)
                        table)).
Proof.
  induction table as [|[os archs] table IH]; cbn [VespaBinaryDownloader.for_platforms map List.concat]; [req_step | ].
  eapply requests_bind; [ apply requests_for_archs | intro; exact IH | reflexivity].
Qed.

Definition checksum_url (version : string) : string :=
  "https://github.com/vespa-engine/vespa/releases/download/v" ++ version
  ++ "/vespa-cli_" ++ version ++ "_sha256sums.txt".

(** The version [get_latest_version] of the batch downloader reads off the
    release endpoint, if the request and the JSON lookup succeed. *)
Definition latest_version_of (w : World) : option string :=
  match http w VespaClientInstaller.LATEST_URL with
  | RespConnError => None
  | Resp st body =>
      if (400 <=? st)%nat && (st <? 600)%nat then None
      else strip_v <$> json_tag_name w body
  end.

Lemma utils_get_latest_version_spec s :
  trace (fst (VespaBinaryDownloader.get_latest_version s)) =
    (trace s ++ [EvGet VespaClientInstaller.LATEST_URL])%list /\
  (forall v, snd (VespaBinaryDownloader.get_latest_version s) = Ret v <->
             latest_version_of (world s) = Some v).
Proof.
  unfold VespaBinaryDownloader.get_latest_version, latest_version_of, requests_get,
    raise_for_status, VespaClientInstaller.json_tag. unfold_monad. cbn.
  destruct (http (world s) _) as [ | st body]; cbn.
  - split; [reflexivity | split; discriminate].
  - destruct ((400 <=? st)%nat && (st <? 600)%nat); cbn;
      [split; [reflexivity | split; discriminate] | ].
    destruct (json_tag_name (world s) body); cbn;
      (split; [reflexivity | ]); intros v; split; congruence.
Qed.

(** The requests of the batch downloader's [run]: the release endpoint,
    the checksum file of the latest version [v], then one archive per
    (OS, architecture) pair of [VALID_OS_ARCH], in the order of the table;
    a run stops at its first failure, so the requests made are always a
    prefix of that sequence, and all of it when [run] returns.  When the
    latest version cannot be read, only the release endpoint is requested
    and [run] raises. *)
Theorem utils_run_requests (s : St) :
  let '(s', r) := VespaBinaryDownloader.run s in
  exists evs, trace s' = (trace s ++ evs)%list /\
    match latest_version_of (world s) with
    | None => get_urls evs = [VespaClientInstaller.LATEST_URL] /\ r <> Ret tt
    | Some v =>
        let all := (VespaClientInstaller.LATEST_URL :: checksum_url v :: archive_urls v)%list in
        get_urls evs `prefix_of` all /\ (r = Ret tt -> get_urls evs = all)
    end.
Proof.
  destruct (utils_get_latest_version_spec s) as [Ht Hv].
  unfold VespaBinaryDownloader.run. unfold mbind at 1, M_bind at 1.
  destruct (VespaBinaryDownloader.get_latest_version s) as [s1 [v | e]] eqn:E;
    cbn in Ht, Hv.
  - assert (Hl : latest_version_of (world s) = Some v) by (by apply Hv).
    rewrite Hl.
    assert (Hr : requests
      (checksum_file ← VespaBinaryDownloader.download_checksum_file v;
       text ← read_file checksum_file;
       let checksum_content := readlines text in
       log_ Info ("Latest Vespa CLI version: " ++ v);;
       VespaBinaryDownloader.for_platforms v VespaBinaryDownloader.VALID_OS_ARCH checksum_content;;
       log_ Info "Binary download and extraction complete")
      (checksum_url v :: archive_urls v)).
    { eapply requests_bind;
        [ unfold VespaBinaryDownloader.download_checksum_file;
          eapply requests_bind; [req_step | intro; apply requests_utils_download_file | reflexivity]
        | intro | reflexivity ].
      eapply requests_bind; [ req_step | intro | reflexivity ]. cbv zeta.
      eapply requests_bind; [ req_step | intro | reflexivity ].
      eapply requests_bind; [ apply requests_for_platforms | intro; req_step | ].
      by rewrite app_nil_r. }
    cbv zeta in Hr. destruct (Hr s1) as [evs [H1 [P1 R1]]]. revert H1 R1.
    match goal with |- context [?m s1] => destruct (m s1) as [s2 r] end.
    cbn. intros H1 R1.
    exists (EvGet VespaClientInstaller.LATEST_URL :: evs).
    rewrite H1, Ht, <- app_assoc. split; [reflexivity | ]. cbn.
    split; [by apply prefix_cons | intros ->; by rewrite (R1 tt eq_refl)].
  - destruct (latest_version_of (world s)) as [v | ] eqn:Hl.
    + discriminate (proj2 (Hv v) eq_refl).
    + exists [EvGet VespaClientInstaller.LATEST_URL]. cbn.
      split; [exact Ht | split; [reflexivity | discriminate]].
Qed.

(* ------------------------------------------------------------------ *)
(** ** The binary the console entry point looks for *)

(** [get_binary_path] only reads the state.  On darwin, linux and windows
    it accepts every machine string and looks for the binary of one of the
    architectures the batch downloader fetches for that OS
    ([VALID_OS_ARCH]), at
    <package>/go-binaries/vespa-cli_<version>_<os>_<arch>/bin/vespa(.exe),
    joined by the host's [os.path.join] (backslashes on Windows);
    it returns that path when it exists and raises [FileNotFoundError]
    otherwise.  Any other OS raises [OSError]. *)
Theorem cli_get_binary_path_lookup (vespa_version : string) (s : St) :
  let os := lower (platform_system (world s)) in
  fst (VespaCli.get_binary_path vespa_version s) = s /\
  (In os ["darwin"; "linux"; "windows"] ->
   exists archs a,
     In (os, archs) VespaBinaryDownloader.VALID_OS_ARCH /\ In a archs /\
     let join := os_join (world s) in
     let p := join
                (join
                   (join (join (package_dir (world s)) "go-binaries")
                      ("vespa-cli_" ++ vespa_version ++ "_" ++ os ++ "_" ++ a))
                   "bin")
                (if String.eqb os "windows" then "vespa.exe" else "vespa") in
     snd (VespaCli.get_binary_path vespa_version s) =
       if bool_decide (is_Some (files s !! p) \/ p ∈ dirs s) then Ret p
       else Exn (FileNotFoundError ("Binary executable not found: " ++ p))) /\
  (~ In os ["darwin"; "linux"; "windows"] ->
   snd (VespaCli.get_binary_path vespa_version s) = Exn (OSError "Unsupported operating system")).
Proof.
  cbv zeta. unfold VespaCli.get_binary_path, path_exists, os_join, is_windows.
  unfold_monad. cbn.
  generalize (lower (platform_machine (world s))) as m.
  generalize (lower (platform_system (world s))) as o.
  intros o m.
  destruct (String.eqb_spec o "darwin") as [-> | Hd];
    [ | destruct (String.eqb_spec o "linux") as [-> | Hl];
        [ | destruct (String.eqb_spec o "windows") as [-> | Hw]]].
  - split; [destruct (_ || _); reflexivity | ].
    split; [ | intros Hn; exfalso; apply Hn; cbn; tauto].
    intros _. exists ["amd64"; "arm64"], (if String.eqb m "arm64" then "arm64" else "amd64").
    split; [cbn; tauto | split; [destruct (String.eqb m "arm64"); cbn; tauto | ]].
    cbn. rewrite bool_decide_or. destruct (_ || _); reflexivity.
  - split; [destruct (_ || _); reflexivity | ].
    split; [ | intros Hn; exfalso; apply Hn; cbn; tauto].
    intros _. exists ["amd64"; "arm64"], (if String.eqb m "aarch64" then "arm64" else "amd64").
    split; [cbn; tauto | split; [destruct (String.eqb m "aarch64"); cbn; tauto | ]].
    cbn. rewrite bool_decide_or. destruct (_ || _); reflexivity.
  - split; [destruct (_ || _); reflexivity | ].
    split; [ | intros Hn; exfalso; apply Hn; cbn; tauto].
    intros _. exists ["386"; "amd64"], (if String.eqb m "x86" then "386" else "amd64").
    split; [cbn; tauto | split; [destruct (String.eqb m "x86"); cbn; tauto | ]].
    cbn. rewrite bool_decide_or. destruct (_ || _); reflexivity.
  - split; [reflexivity | split; [ | reflexivity]].
    intros Hin. exfalso. cbn in Hin. intuition congruence.
Qed.

(* ------------------------------------------------------------------ *)
(** ** The installer object *)

Ltac split_string_tests_in H :=
  repeat match type of H with
         | context [String.eqb ?a ?b] => destruct (String.eqb a b)
         end.

(** Whatever the host, a [VespaCLIInstaller] that [__init__] builds has an
    OS name among windows, darwin and linux, an executable name that is
    "vespa.exe" exactly on windows, and an architecture among amd64 and
    arm64 ([vespa_client]) or amd64, arm64 and 386 ([vespa/cli]); the
    construction changes no file. *)
Theorem installer_init_invariant (s : St) :
  (forall s' self, VespaClientInstaller.init s = (s', Ret self) ->
     In (os_name self) VespaClientInstaller.SUPPORTED_OS /\
     In (arch self) ["amd64"; "arm64"] /\
     (vespa_executable_name self = "vespa.exe" <-> os_name self = "windows") /\
     files s' = files s) /\
  (forall s' self, VespaInstaller.init s = (s', Ret self) ->
     In (os_name self) VespaInstaller.SUPPORTED_OS /\
     In (arch self) ["amd64"; "arm64"; "386"] /\
     (vespa_executable_name self = "vespa.exe" <-> os_name self = "windows") /\
     files s' = files s).
Proof.
  split; intros s' self H;
    unfold VespaClientInstaller.init, VespaClientInstaller.get_os_and_architecture,
      VespaInstaller.init, VespaInstaller.get_os_and_architecture in H;
    unfold_monad; cbn in H;
    destruct s as [w fs ds e n l t]; cbn in H;
    set (o := lower (platform_system w)) in H;
    set (m := lower (platform_machine w)) in H; clearbody o m;
    unfold str_in, existsb in H; cbn in H.
  - destruct (String.eqb_spec m "x86_64"); [ | destruct (String.eqb_spec m "amd64");
      [ | destruct (String.eqb_spec m "arm64"); [ | destruct (String.eqb_spec m "aarch64")]]];
      cbn in H; try discriminate;
      (destruct (String.eqb_spec o "windows") as [-> | ];
       [ | destruct (String.eqb_spec o "darwin") as [-> | ];
           [ | destruct (String.eqb_spec o "linux") as [-> | ]]]);
      cbn in H; inversion H; subst; cbn; intuition congruence.
  - destruct (String.eqb_spec o "windows") as [-> | ];
      [ | destruct (String.eqb_spec o "darwin") as [-> | ];
          [ | destruct (String.eqb_spec o "linux") as [-> | ]]];
      cbn in H; try discriminate; inversion H; subst; cbn;
      (split; [tauto | split; [split_string_tests; cbn; tauto | split; [intuition congruence | reflexivity]]]).
Qed.

(* ------------------------------------------------------------------ *)
(** ** Removal of the downloaded archive by the installers *)

Lemma os_remove_gone p s : files (fst (os_remove p s)) !! p = None.
Proof.
  unfold os_remove. unfold_monad. cbn.
  destruct (files s !! p) eqn:E; cbn; [apply lookup_delete_eq | exact E].
Qed.

Lemma try_finally_os_remove_gone {A} (body : M A) p s :
  files (fst (try_finally body (os_remove p) s)) !! p = None.
Proof.
  unfold try_finally. destruct (body s) as [s1 r].
  pose proof (os_remove_gone p s1) as G.
  destruct (os_remove p s1) as [s2 [[] | e]]; exact G.
Qed.

(** The [try ... finally: os.remove(file_path)] of both installer
    revisions: whatever happens during the extraction (an archive that
    cannot be opened, a member that cannot be written), no file is left at
    [file_path] when [extract_file] returns or raises. *)
Theorem installer_extract_file_removes_archive (file_path file_extension : string) (s : St) :
  files (fst (VespaClientInstaller.extract_file file_path file_extension s)) !! file_path = None /\
  files (fst (VespaInstaller.extract_file file_path file_extension s)) !! file_path = None.
Proof.
  split;
    [unfold VespaClientInstaller.extract_file, mkdtemp, fresh_name
    | unfold VespaInstaller.extract_file];
    unfold_monad; cbn -[try_finally];
    match goal with
    | |- context [try_finally ?b (os_remove ?p) ?s0] =>
        pose proof (try_finally_os_remove_gone b p s0) as G;
        destruct (try_finally b (os_remove p) s0) as [s3 [x | e]]
    end; exact G.
Qed.

(* ------------------------------------------------------------------ *)
(** ** The symlink of [vespa/cli/installer.py] *)

Definition unix_link : string := "/usr/local/bin/vespa".

Lemma os_dirname_unix_link w : os_dirname w unix_link = "/usr/local/bin".
Proof. unfold os_dirname. by destruct (is_windows w). Qed.

(** [create_alias_unix] of [vespa/cli]: when /usr/local/bin exists, the
    process may write /usr/local/bin/vespa and no directory sits there, it
    replaces whatever file or link is there by a link to [vespa_bin_path]
    (a link is kept as an entry "-> target"), changes no other file and
    returns normally. *)
Theorem installer_create_alias_unix_links (vespa_bin_path : string) (s : St) :
  "/usr/local/bin" ∈ dirs s ->
  unix_link ∉ dirs s ->
  read_only (world s) unix_link = false ->
  let '(s', r) := VespaInstaller.create_alias_unix vespa_bin_path s in
  r = Ret tt /\
  files s' = <[unix_link := "-> " ++ vespa_bin_path]> (files s) /\
  last (logs s') = Some (Info, "Created symlink for vespa at " ++ unix_link).
Proof.
  intros Hp Hd Hr.
  unfold VespaInstaller.create_alias_unix, path_exists, os_remove, os_symlink,
    refuse_read_only.
  unfold_monad. cbv zeta. fold unix_link. cbn.
  destruct (files s !! unix_link) as [c | ] eqn:E; cbn.
  - rewrite E. cbn. rewrite os_dirname_unix_link. unfold dir_exists. cbn.
    rewrite lookup_delete_eq, (bool_decide_eq_true_2 _ Hp), (bool_decide_eq_false_2 _ Hd).
    cbn. rewrite Hr. cbn. rewrite insert_delete_eq.
    split; [reflexivity | split; [reflexivity | by rewrite last_snoc]].
  - rewrite (bool_decide_eq_false_2 _ Hd). cbn.
    rewrite os_dirname_unix_link. unfold dir_exists. cbn.
    rewrite E, (bool_decide_eq_true_2 _ Hp), (bool_decide_eq_false_2 _ Hd).
    cbn. rewrite Hr. cbn.
    split; [reflexivity | split; [reflexivity | by rewrite last_snoc]].
Qed.

(* ------------------------------------------------------------------ *)
(** ** The shell profile of [vespa_client] *)

Definition alias_command (vespa_bin_path : string) : string :=
  nl ++ "# Alias for Vespa CLI" ++ nl ++ "alias vespa=" ++ dq ++ vespa_bin_path ++ dq ++ nl.

Definition absent (s : St) (p : string) : Prop :=
  files s !! p = None /\ p ∉ dirs s.

Lemma bind_ret {A B} (m : M A) (f : A -> M B) s s1 a :
  m s = (s1, Ret a) -> (x ← m; f x) s = f a s1.
Proof. intros H. unfold mbind, M_bind. by rewrite H. Qed.

Lemma str_app_cons (x : ascii) (a b : string) : (String x a ++ b)%string = String x (a ++ b).
Proof. reflexivity. Qed.

Lemma str_app_assoc (a b c : string) : ((a ++ b) ++ c)%string = (a ++ b ++ c)%string.
Proof. induction a as [|x a IH]; [reflexivity | by rewrite !str_app_cons, IH]. Qed.

Lemma str_app_inv_l (a b c : string) : (a ++ b)%string = (a ++ c)%string -> b = c.
Proof.
  induction a as [|x a IH]; [done | ].
  rewrite !str_app_cons. intros H. injection H. exact IH.
Qed.

Lemma str_app_nil_r (a : string) : (a ++ EmptyString)%string = a.
Proof. induction a as [|x a IH]; [reflexivity | by rewrite str_app_cons, IH]. Qed.

Lemma string_rev_app (a b : string) :
  string_rev (a ++ b) = (string_rev b ++ string_rev a)%string.
Proof.
  induction a as [|x a IH].
  - cbn [String.append string_rev]. by rewrite str_app_nil_r.
  - rewrite str_app_cons. cbn [string_rev]. by rewrite IH, str_app_assoc.
Qed.

Lemma first_existing_found home pre prof post s :
  Forall (fun q => absent s (posix_join home q)) pre ->
  is_Some (files s !! posix_join home prof) \/ posix_join home prof ∈ dirs s ->
  VespaClientInstaller.first_existing home (pre ++ prof :: post)%list s =
    (s, Ret (Some (posix_join home prof))).
Proof.
  intros Hpre Hex. induction Hpre as [|q pre [Hf Hd] _ IH]; cbn; unfold path_exists; unfold_monad; cbn.
  - destruct Hex as [Hex | Hex];
      [by rewrite (bool_decide_eq_true_2 _ Hex) | by rewrite (bool_decide_eq_true_2 _ Hex), orb_true_r].
  - rewrite Hf. cbn. rewrite (bool_decide_eq_false_2 _ Hd). exact IH.
Qed.

Lemma first_existing_none home profiles s :
  Forall (fun q => absent s (posix_join home q)) profiles ->
  VespaClientInstaller.first_existing home profiles s = (s, Ret None).
Proof.
  induction 1 as [|q ps [Hf Hd] _ IH]; cbn; unfold path_exists; unfold_monad; cbn; [reflexivity | ].
  rewrite Hf. cbn. rewrite (bool_decide_eq_false_2 _ Hd). exact IH.
Qed.

(** No profile path ends in a separator. *)
Lemma shell_profile_not_dir_name w home prof :
  In prof VespaClientInstaller.shell_profiles ->
  ends_with_sep w (posix_join home prof) = false.
Proof.
  intros Hin.
  assert (Hl : forall x, ends_with_sep w (x ++ prof) = false).
  { intros x. unfold ends_with_sep. rewrite string_rev_app.
    destruct Hin as [<- | [<- | [<- | [<- | []]]]]; cbn;
      unfold path_seps; by destruct (is_windows w). }
  unfold posix_join.
  replace (String.get 0 prof) with (Some "."%char)
    by (destruct Hin as [<- | [<- | [<- | [<- | []]]]]; reflexivity).
  destruct (String.eqb home EmptyString); [exact (Hl EmptyString) | ].
  destruct (endswith home "/"); [apply Hl | ].
  rewrite <- str_app_assoc. apply Hl.
Qed.

Lemma shell_profiles_split pre prof post :
  VespaClientInstaller.shell_profiles = (pre ++ prof :: post)%list ->
  In prof VespaClientInstaller.shell_profiles.
Proof. intros ->. apply in_or_app. right. by left. Qed.

(** [detect_shell_profile] finds the profile [prof] when [HOME] is set,
    the profiles before it are absent and [prof] exists. *)
Lemma detect_shell_profile_found home pre prof post s :
  env s !! "HOME" = Some home ->
  VespaClientInstaller.shell_profiles = (pre ++ prof :: post)%list ->
  Forall (fun q => absent s (posix_join home q)) pre ->
  is_Some (files s !! posix_join home prof) \/ posix_join home prof ∈ dirs s ->
  VespaClientInstaller.detect_shell_profile s = (s, Ret (Some (posix_join home prof))).
Proof.
  intros Hh Hsp Hpre Hex. unfold VespaClientInstaller.detect_shell_profile.
  rewrite (bind_ret _ _ s s (Some home)) by (unfold environ_get, gets; by rewrite Hh).
  cbn beta iota. rewrite Hsp.
  rewrite (bind_ret _ _ s s (Some (posix_join home prof)));
    [reflexivity | by apply first_existing_found].
Qed.

(** [create_alias_unix] of [vespa_client], with [HOME] set, appends the
    alias block to the first of ~/.bash_profile, ~/.bashrc, ~/.zshrc and
    ~/.config/fish/config.fish that exists.  When that profile is a
    regular file the process may write, in an existing directory, the
    block is appended: the file's content is kept as a prefix and no other
    file changes.  When it is a directory, or a read-only file, nothing is
    written and the error is logged.  When no profile exists it changes no
    file and logs a warning and an error.  It returns normally in every
    case. *)
Theorem client_create_alias_unix_profile (vespa_bin_path home : string) (s : St) :
  env s !! "HOME" = Some home ->
  (forall pre prof post old,
     VespaClientInstaller.shell_profiles = (pre ++ prof :: post)%list ->
     Forall (fun q => absent s (posix_join home q)) pre ->
     files s !! posix_join home prof = Some old ->
     posix_join home prof ∉ dirs s ->
     dir_exists s (os_dirname (world s) (posix_join home prof)) = true ->
     read_only (world s) (posix_join home prof) = false ->
     let '(s', r) := VespaClientInstaller.create_alias_unix vespa_bin_path s in
     r = Ret tt /\
     files s' = <[posix_join home prof := old ++ alias_command vespa_bin_path]> (files s)) /\
  (forall pre prof post,
     VespaClientInstaller.shell_profiles = (pre ++ prof :: post)%list ->
     Forall (fun q => absent s (posix_join home q)) pre ->
     posix_join home prof ∈ dirs s \/
       (is_Some (files s !! posix_join home prof) /\
        read_only (world s) (posix_join home prof) = true) ->
     let '(s', r) := VespaClientInstaller.create_alias_unix vespa_bin_path s in
     r = Ret tt /\ files s' = files s /\
     exists msg, last (logs s') = Some (Error, "Failed to add alias for vespa. " ++ msg)) /\
  (Forall (fun q => absent s (posix_join home q)) VespaClientInstaller.shell_profiles ->
   let '(s', r) := VespaClientInstaller.create_alias_unix vespa_bin_path s in
   r = Ret tt /\ files s' = files s /\
   logs s' = (logs s ++ [(Warning, "Could not detect shell profile script.");
                         (Error, "Shell profile not found. Manual alias creation required.")])%list).
Proof.
  intros Hh. split; [ | split].
  - intros pre prof post old Hsp Hpre Hold Hnd Hpar Hro.
    unfold VespaClientInstaller.create_alias_unix.
    rewrite (bind_ret _ _ s s (Some (posix_join home prof)))
      by (apply (detect_shell_profile_found home pre prof post s Hh Hsp Hpre);
          left; rewrite Hold; by eexists).
    cbn beta iota. unfold try_except, append_file, check_writable, refuse_read_only.
    unfold_monad. cbn.
    rewrite (bool_decide_eq_false_2 _ Hnd),
      (shell_profile_not_dir_name _ _ _ (shell_profiles_split _ _ _ Hsp)), Hpar.
    cbn. rewrite Hro. cbn. rewrite Hold. cbn. split; reflexivity.
  - intros pre prof post Hsp Hpre Hbad.
    unfold VespaClientInstaller.create_alias_unix.
    rewrite (bind_ret _ _ s s (Some (posix_join home prof))).
    2:{ apply (detect_shell_profile_found home pre prof post s Hh Hsp Hpre).
        destruct Hbad as [Hd | [Hf _]]; [by right | by left]. }
    cbn beta iota. unfold try_except, append_file, check_writable, refuse_read_only.
    unfold_monad. cbn.
    destruct (bool_decide (posix_join home prof ∈ dirs s)) eqn:Hd; cbn.
    + split; [reflexivity | split; [reflexivity | eexists; by rewrite last_snoc]].
    + rewrite (shell_profile_not_dir_name _ _ _ (shell_profiles_split _ _ _ Hsp)). cbn.
      destruct Hbad as [Hd' | [_ Hro]];
        [apply bool_decide_eq_false_1 in Hd; contradiction | ].
      destruct (dir_exists s _); cbn; [rewrite Hro; cbn | ];
        (split; [reflexivity | split; [reflexivity | eexists; by rewrite last_snoc]]).
  - intros Hnone.
    unfold VespaClientInstaller.create_alias_unix.
    rewrite (bind_ret _ _ s (set_logs (logs s ++ [(Warning, "Could not detect shell profile script.")]) s) None).
    2:{ unfold VespaClientInstaller.detect_shell_profile.
        rewrite (bind_ret _ _ s s (Some home)) by (unfold environ_get, gets; by rewrite Hh).
        cbn beta iota.
        rewrite (bind_ret _ _ s s None) by (apply first_existing_none; exact Hnone).
        unfold_monad. reflexivity. }
    unfold_monad. cbn.
    split; [reflexivity | split; [reflexivity | by rewrite <- app_assoc]].
Qed.
(* ------------------------------------------------------------------ *)
(** ** The Homebrew path of [vespa_client] *)

Definition which_brew : list string := ["which"; "brew"].
Definition brew_install : list string := ["brew"; "install"; "vespa-cli"].

Definition run_handler (e : exc) : M unit :=
  log_ Error ("An error occurred during installation: " ++ exc_str e).

(** [check_brew_installed] never raises: it answers whether [which brew]
    exited with 0, and answers no when [which] cannot be started.  On
    darwin, [run] with Homebrew present and a successful
    [brew install vespa-cli] returns at once: it makes no HTTP request,
    changes no file and runs nothing else.  When [which brew] fails, or
    [brew install] exits with a non-zero code, [run] goes on with the
    binary installation (from the state left by the Homebrew commands,
    inside the same [except Exception] handler). *)
Theorem client_run_homebrew (self : installer) (s : St) :
  snd (VespaClientInstaller.check_brew_installed s) =
    Ret (match proc (world s) which_brew with Exited c => Z.eqb c 0 | NotLaunched => false end) /\
  files (fst (VespaClientInstaller.check_brew_installed s)) = files s /\
  (os_name self = "darwin" ->
   proc (world s) which_brew = Exited 0 ->
   proc (world s) brew_install = Exited 0 ->
   let '(s', r) := VespaClientInstaller.run self s in
   r = Ret tt /\ files s' = files s /\
   trace s' = (trace s ++ [EvRun which_brew; EvRun brew_install])%list) /\
  (os_name self = "darwin" ->
   proc (world s) which_brew = Exited 0 ->
   (exists c, proc (world s) brew_install = Exited c /\ c <> 0%Z) ->
   exists s1, files s1 = files s /\
     trace s1 = (trace s ++ [EvRun which_brew; EvRun brew_install])%list /\
     VespaClientInstaller.run self s =
       try_except (VespaClientInstaller.binary_install self) is_exception run_handler s1) /\
  (os_name self = "darwin" ->
   proc (world s) which_brew <> Exited 0 ->
   exists s1, files s1 = files s /\
     trace s1 = (trace s ++ [EvRun which_brew])%list /\
     VespaClientInstaller.run self s =
       try_except (VespaClientInstaller.binary_install self) is_exception run_handler s1).
Proof.
  unfold which_brew, brew_install.
  split; [ | split; [ | split; [ | split]]].
  - unfold VespaClientInstaller.check_brew_installed, try_except, subprocess_run.
    unfold_monad. cbn. 
    destruct (proc (world s) ["which"; "brew"]) as [[] | ]; reflexivity.
  - unfold VespaClientInstaller.check_brew_installed, try_except, subprocess_run.
    unfold_monad. cbn. 
    destruct (proc (world s) ["which"; "brew"]) as [[] | ]; reflexivity.
  - intros Hd Hw Hb. unfold VespaClientInstaller.run. rewrite Hd. cbn.
    unfold VespaClientInstaller.check_brew_installed, try_except, subprocess_run.
    unfold_monad. cbn.  rewrite Hw. cbn. rewrite Hb. cbn.
    split; [reflexivity | split; [reflexivity | by rewrite <- app_assoc]].
  - intros Hd Hw [c [Hb Hc]]. unfold VespaClientInstaller.run. rewrite Hd. cbn.
    unfold VespaClientInstaller.check_brew_installed, try_except, subprocess_run.
    unfold_monad. cbn -[VespaClientInstaller.binary_install].  rewrite Hw. cbn -[VespaClientInstaller.binary_install]. rewrite Hb. cbn -[VespaClientInstaller.binary_install].
    apply Z.eqb_neq in Hc. rewrite Hc. cbn -[VespaClientInstaller.binary_install].
    eexists. split; [ | split]. 3: (unfold run_handler; unfold_monad; reflexivity).
    all: cbn; first [reflexivity | by rewrite <- app_assoc].
  - intros Hd Hw. unfold VespaClientInstaller.run. rewrite Hd. cbn.
    unfold VespaClientInstaller.check_brew_installed, try_except, subprocess_run.
    unfold_monad. cbn -[VespaClientInstaller.binary_install]. 
    destruct (proc (world s) ["which"; "brew"]) as [[| p | p] | ]; try congruence; cbn -[VespaClientInstaller.binary_install];
      (eexists; split; [ | split]; [ | | unfold run_handler; unfold_monad; reflexivity]);
      reflexivity.
Qed.

(* ------------------------------------------------------------------ *)
(** ** Downloads *)

(** The name [NamedTemporaryFile] picks for the next temporary file. *)
Definition temp_path (s : St) (suffix : string) : string :=
  "/tmp/tmp" ++ pretty (N.of_nat (counter s)) ++ suffix.

(** Every character of a string satisfies [p]. *)
Fixpoint str_forall (p : ascii -> bool) (s : string) : bool :=
  match s with
  | EmptyString => true
  | String c t => p c && str_forall p t
  end.

Lemma str_forall_app p a b : str_forall p (a ++ b) = str_forall p a && str_forall p b.
Proof.
  induction a as [|c a IH]; [reflexivity | ].
  rewrite str_app_cons. cbn. by rewrite IH, andb_assoc.
Qed.

Lemma str_forall_rev p a : str_forall p (string_rev a) = str_forall p a.
Proof.
  induction a as [|c a IH]; [reflexivity | ].
  cbn [string_rev]. rewrite str_forall_app, IH. cbn.
  by rewrite andb_true_r, andb_comm.
Qed.

Lemma str_forall_impl (p q : ascii -> bool) s :
  (forall c, p c = true -> q c = true) -> str_forall p s = true -> str_forall q s = true.
Proof.
  intros Hpq. induction s as [|c s IH]; [done | ]. cbn.
  intros [Hc Hs]%andb_true_iff. by rewrite Hpq, IH.
Qed.

Lemma drop_while_app p a b :
  str_forall p a = true -> drop_while p (a ++ b) = drop_while p b.
Proof.
  induction a as [|c a IH]; [done | ]. rewrite str_app_cons. cbn.
  intros [-> H]%andb_true_iff. by apply IH.
Qed.

(** A character that is a path separator on no host. *)
Definition not_sep (c : ascii) : bool := negb (is_sep nt_seps c).

Lemma pretty_N_go_not_sep x s :
  str_forall not_sep s = true -> str_forall not_sep (pretty_N_go x s) = true.
Proof.
  revert s. induction (N.lt_wf_0 x) as [x _ IH]; intros s Hs.
  destruct (decide (x = 0)%N) as [-> | Hx]; [by rewrite pretty_N_go_0 | ].
  rewrite pretty_N_go_step by lia. apply IH; [apply N.div_lt; lia | ].
  cbn. rewrite Hs, andb_true_r. unfold pretty_N_char. by repeat case_match.
Qed.

Lemma pretty_not_sep n : str_forall not_sep (pretty (N.of_nat n)) = true.
Proof.
  unfold pretty, pretty_N. case_decide; [reflexivity | ].
  by apply pretty_N_go_not_sep.
Qed.

(** The temporary file lives in [tempdir]. *)
Lemma temp_path_dirname w s sfx :
  str_forall not_sep sfx = true -> os_dirname w (temp_path s sfx) = tempdir.
Proof.
  intros Hs. unfold temp_path.
  pose proof (pretty_not_sep (counter s)) as Hd.
  set (d := pretty (N.of_nat (counter s))) in *.
  assert (Hall : forall seps, (forall c, not_sep c = true -> negb (is_sep seps c) = true) ->
            drop_while (fun c => negb (is_sep seps c)) (string_rev ("/tmp/tmp" ++ d ++ sfx))
            = drop_while (fun c => negb (is_sep seps c)) (string_rev "/tmp/tmp")).
  { intros seps Himp. rewrite !string_rev_app.
    apply drop_while_app, (str_forall_impl not_sep); [exact Himp | ].
    by rewrite str_forall_app, !str_forall_rev, Hs, Hd. }
  unfold os_dirname, nt_dirname, dirname_with, posix_dirname.
  destruct (is_windows w).
  - rewrite Hall; [reflexivity | tauto].
  - rewrite Hall; [reflexivity | ].
    intros c. unfold not_sep, is_sep, nt_seps, posix_seps. cbn.
    by destruct (Ascii.eqb c "\"%char), (Ascii.eqb c "/"%char).
Qed.

Lemma string_rev_nil a : string_rev a = EmptyString -> a = EmptyString.
Proof.
  destruct a as [|c a]; [done | ]. cbn [string_rev].
  by destruct (string_rev a).
Qed.

Lemma temp_path_not_dir_name w s sfx :
  sfx <> EmptyString -> str_forall not_sep sfx = true ->
  ends_with_sep w (temp_path s sfx) = false.
Proof.
  intros Hne Hs. unfold ends_with_sep, temp_path.
  rewrite !string_rev_app.
  rewrite <- (str_forall_rev not_sep) in Hs.
  destruct (string_rev sfx) as [|c r] eqn:E; [by apply string_rev_nil in E | ].
  rewrite !str_app_cons. cbn in Hs. apply andb_true_iff in Hs as [Hc _].
  revert Hc. unfold not_sep, path_seps, is_sep, nt_seps, posix_seps. cbn.
  destruct (is_windows w); cbn;
    destruct (Ascii.eqb c "\"%char), (Ascii.eqb c "/"%char); cbn; done.
Qed.

Lemma temp_path_not_tempdir s sfx : temp_path s sfx <> tempdir.
Proof. unfold temp_path, tempdir. intros H. inversion H. Qed.


(** [download_file] of [utils/download_binaries.py] saves the body under
    the installation directory, named by the part of the URL after its
    last "/", and returns that path, when the response is not an error
    (status outside 400 to 599) and that path can be opened for writing;
    when it cannot (the directory is missing, the name is empty, a
    directory is there or writing is refused) it raises and changes no
    file.  When the request fails it raises that error and changes no
    file (nothing is created before the request). *)
Theorem utils_download_file_saves (url : string) (s : St) :
  let file_path := posix_join (VespaBinaryDownloader.INSTALLATION_DIR (world s))
                              (last_item (split_on "/"%char url)) in
  (forall status body,
     http (world s) url = Resp status body -> ~ (400 <= status < 600)%nat ->
     writable_file s file_path ->
     let '(s', r) := VespaBinaryDownloader.download_file url s in
     r = Ret file_path /\ files s' = <[file_path := body]> (files s)) /\
  (forall status body,
     http (world s) url = Resp status body -> ~ (400 <= status < 600)%nat ->
     ~ writable_file s file_path ->
     let '(s', r) := VespaBinaryDownloader.download_file url s in
     (exists e, r = Exn e) /\ files s' = files s) /\
  (forall e,
     request_failure url (http (world s) url) = Some e ->
     let '(s', r) := VespaBinaryDownloader.download_file url s in
     r = Exn e /\ files s' = files s).
Proof.
  cbv zeta. split; [ | split]; [intros st body Hr Hst Hwf | intros st body Hr Hst Hn | intros e He];
    unfold VespaBinaryDownloader.download_file, write_file,
      requests_get, raise_for_status;
    unfold_monad;
    cbn -[posix_join last_item split_on VespaBinaryDownloader.INSTALLATION_DIR check_writable].
  1,2: rewrite Hr;
    cbn -[posix_join last_item split_on VespaBinaryDownloader.INSTALLATION_DIR check_writable];
    replace ((400 <=? st)%nat && (st <? 600)%nat) with false;
    [ | symmetry; apply andb_false_iff;
        destruct (Nat.leb_spec 400 st); [right; apply Nat.ltb_ge; lia | by left] ];
    cbn -[posix_join last_item split_on VespaBinaryDownloader.INSTALLATION_DIR check_writable].
  - match goal with
    | |- context [check_writable ?p ?s1] => rewrite (check_writable_ok p s1 Hwf)
    end.
    cbn. split; reflexivity.
  - match goal with
    | |- context [check_writable ?p ?s1] =>
        destruct (check_writable_fails p s1 Hn) as [e He]; rewrite He
    end.
    cbn. split; [eauto | reflexivity].
  - unfold request_failure in He.
    destruct (http (world s) url) as [ | st body]; cbn.
    + injection He as <-. split; reflexivity.
    + destruct ((400 <=? st)%nat && (st <? 600)%nat); cbn; [ | discriminate].
      injection He as <-. split; reflexivity.
Qed.

(* ------------------------------------------------------------------ *)
(** ** The Windows copy *)

Definition setx_outcome (w : World) (new_path : string) : outcome unit :=
  match proc w (setx_cmd new_path) with
  | Exited _ => Ret tt
  | NotLaunched => Exn (OSError "setx")
  end.

Definition windows_target (self : installer) (profile : string) : string :=
  nt_join (nt_join profile "bin") (vespa_executable_name self).


(* ------------------------------------------------------------------ *)
(** ** Concrete runs of the extra properties *)

Definition linux_state : St :=
  state_of (sample_world "Linux" "x86_64") ∅ (<["HOME" := "/home/u"]> ∅).

Definition profile_state : St :=
  set_dirs {[ "/home/u" ]}
    (state_of (sample_world "Linux" "x86_64") (<["/home/u/.bashrc" := "export A=1"]> ∅)
       (<["HOME" := "/home/u"]> ∅)).

(** /usr/local/bin/vespa already links to an older binary. *)
Definition link_state : St :=
  set_dirs {[ "/usr/local/bin" ]}
    (state_of (sample_world "Linux" "x86_64") {[ "/usr/local/bin/vespa" := "-> /opt/old/vespa" ]} ∅).

Definition win_installer : installer :=
  {| os_name := "windows"; arch := "amd64"; vespa_executable_name := "vespa.exe" |}.

Definition win_state : St :=
  state_of (sample_world "Windows" "AMD64") (<["C:\tmp\vespa.exe" := "MZ"]> ∅)
    (<["USERPROFILE" := "C:\Users\u"]> ∅).

Ltac not_in_by_compute :=
  match goal with |- ¬ ?P => apply (bool_decide_eq_false_1 P); vm_compute; reflexivity end.

Lemma installer_create_alias_unix_links_witness :
  ("/usr/local/bin" ∈ dirs link_state) /\ (unix_link ∉ dirs link_state) /\
  read_only (world link_state) unix_link = false /\
  let '(s', r) := VespaInstaller.create_alias_unix "/home/user/vespa" link_state in
  r = Ret tt /\
  files s' = <[unix_link := "-> " ++ "/home/user/vespa"]> (files link_state) /\
  last (logs s') = Some (Info, "Created symlink for vespa at " ++ unix_link).
Proof.
  assert (H1 : "/usr/local/bin" ∈ dirs link_state) by (cbn; set_solver).
  assert (H2 : unix_link ∉ dirs link_state) by not_in_by_compute.
  split; [exact H1 | split; [exact H2 | split; [reflexivity | ]]].
  exact (installer_create_alias_unix_links "/home/user/vespa" link_state H1 H2 eq_refl).
Defined.

Lemma client_create_alias_unix_profile_witness :
  env profile_state !! "HOME" = Some "/home/u" /\
  let '(s', r) := VespaClientInstaller.create_alias_unix "/opt/vespa" profile_state in
  r = Ret tt /\
  files s' = <[posix_join "/home/u" ".bashrc" := "export A=1" ++ alias_command "/opt/vespa"]>
               (files profile_state).
Proof.
  split; [reflexivity | ].
  refine (proj1 (client_create_alias_unix_profile "/opt/vespa" "/home/u" profile_state eq_refl)
            [".bash_profile"] ".bashrc" [".zshrc"; ".config/fish/config.fish"] "export A=1"
            eq_refl _ eq_refl _ ltac:(vm_compute; reflexivity) eq_refl).
  - constructor; [split; [vm_compute; reflexivity | not_in_by_compute] | constructor].
  - not_in_by_compute.
Defined.



(* ------------------------------------------------------------------ *)
(** ** The binary path of [vespa/cli/installer.py] [run] *)


(** The files [extractall] leaves: each member written in turn. *)
Fixpoint extracted (w : World) (dest : string) (members : list (string * string))
    (fs : gmap string string) : gmap string string :=
  match members with
  | [] => fs
  | (name, content) :: ms => extracted w dest ms (<[os_join w dest name := content]> fs)
  end.

Lemma extracted_is_Some w dest members fs k :
  is_Some (fs !! k) -> is_Some (extracted w dest members fs !! k).
Proof.
  revert fs. induction members as [|[name content] ms IH]; intros fs H; cbn; [exact H | ].
  apply IH. destruct (decide (os_join w dest name = k)) as [-> | Hne].
  - rewrite lookup_insert_eq. by eexists.
  - by rewrite lookup_insert_ne.
Qed.

Lemma extracted_other w dest members fs k :
  Forall (fun '(name, _) => os_join w dest name <> k) members ->
  extracted w dest members fs !! k = fs !! k.
Proof.
  intros Hm. revert fs. induction Hm as [|[name content] ms Hn _ IH]; intros fs; cbn;
    [reflexivity | ].
  rewrite IH. by rewrite lookup_insert_ne.
Qed.

(** Nothing stands in the way of [extractall dest members] on a file
    system with files [fs] and directories [ds]: no member lands on a
    directory or on a name ending in a separator, no parent directory a
    member needs is a file, every member may be written, and no member is
    the parent directory of a member. *)
Definition extract_clear (w : World) (fs : gmap string string) (ds : gset string)
    (dest : string) (members : list (string * string)) : Prop :=
  Forall (fun '(name, _) =>
            let t := os_join w dest name in
            (t ∉ ds) /\ ends_with_sep w t = false /\ fs !! os_dirname w t = None /\
            read_only w t = false /\
            Forall (fun '(name', _) => t <> os_dirname w (os_join w dest name')) members)
         members.

(** What an extraction adds to the trace: directories made and members
    written. *)
Definition extract_event (w : World) (dest : string) (members : list (string * string))
    (ev : event) : Prop :=
  (exists d, ev = EvMkdir d) \/
  (exists name content, In (name, content) members /\ ev = EvWrite (os_join w dest name)).

Lemma extractall_clear_aux all dest ms s :
  (forall nc, In nc ms -> In nc all) ->
  (forall n c n' c', In (n, c) all -> In (n', c') all ->
     os_join (world s) dest n <> os_dirname (world s) (os_join (world s) dest n')) ->
  Forall (fun '(name, _) =>
            let t := os_join (world s) dest name in
            (t ∉ dirs s) /\ ends_with_sep (world s) t = false /\
            files s !! os_dirname (world s) t = None /\ read_only (world s) t = false) ms ->
  let '(s', r) := extractall dest ms s in
  r = Ret tt /\ world s' = world s /\ env s' = env s /\ counter s' = counter s /\
  logs s' = logs s /\
  files s' = extracted (world s) dest ms (files s) /\
  (forall d, d ∈ dirs s' -> d ∈ dirs s \/
     exists n c, In (n, c) ms /\ d = os_dirname (world s) (os_join (world s) dest n)) /\
  exists evs, trace s' = (trace s ++ evs)%list /\ Forall (extract_event (world s) dest ms) evs.
Proof.
  revert s. induction ms as [|[n c] ms IH]; intros s Hsub Hcross Hms; cbn.
  - unfold mret, M_ret. repeat split; try reflexivity; [by left | ].
    exists []. split; [by rewrite app_nil_r | constructor].
  - apply Forall_cons in Hms as [(Hd & He & Hf & Hr) Hms].
    unfold path_exists, makedirs, write_file. unfold_monad. cbn.
    set (w := world s) in *. set (t := os_join w dest n) in *.
    set (up := os_dirname w t) in *.
    assert (Htu : t <> up) by (apply (Hcross n c n c); apply Hsub; by left).
    assert (Hall : forall n' c', In (n', c') ms ->
                  (t <> os_dirname w (os_join w dest n')) /\ (os_join w dest n' <> up)).
    { intros n' c' Hin. split; [apply (Hcross n c n' c') | apply (Hcross n' c' n c)];
        apply Hsub; first [by left | by right]. }
    destruct (negb (String.eqb up EmptyString) && negb (bool_decide (is_Some (files s !! up))
                || bool_decide (up ∈ dirs s))) eqn:Hc.
    + match goal with |- context [check_writable t ?sa] =>
        rewrite (check_writable_ok t sa) end.
      2:{ repeat split; cbn.
          - intros [Hin%elem_of_singleton | Hin]%elem_of_union; [exact (Htu Hin) | exact (Hd Hin)].
          - exact He.
          - unfold dir_exists. rewrite bool_decide_eq_true_2 by set_solver.
            by rewrite !orb_true_r.
          - exact Hr. }
      cbn.
      match goal with |- context [extractall dest ms ?sb] =>
        pose proof (IH sb) as IHs; destruct (extractall dest ms sb) as [s' r] end.
      specialize (IHs (fun nc Hin => Hsub nc (or_intror Hin)) Hcross).
      cbn in IHs. destruct IHs as (-> & Hw' & Hen & Hco & Hlo & Hfi & Hdi & evs & Htr & Hev).
      { apply List.Forall_forall. intros [n' c'] Hin.
        pose proof (proj1 (List.Forall_forall _ _) Hms _ Hin) as (Hd' & He' & Hf' & Hr').
        destruct (Hall n' c' Hin) as [H1 H2]. cbn. repeat split; [ | exact He' | | exact Hr'].
        - intros [Hin'%elem_of_singleton | Hin']%elem_of_union; [exact (H2 Hin') | exact (Hd' Hin')].
        - rewrite lookup_insert_ne by exact H1. exact Hf'. }
      repeat split; try assumption.
      * intros d Hd''. destruct (Hdi d Hd'') as [Hin | (n0 & c0 & Hin & ->)].
        -- apply elem_of_union in Hin as [->%elem_of_singleton | Hin]; [ | by left].
           right. exists n, c. split; [by left | reflexivity].
        -- right. exists n0, c0. split; [by right | reflexivity].
      * exists ([EvMkdir up; EvWrite t] ++ evs)%list. rewrite Htr. split.
        { cbn. by rewrite <- !app_assoc. }
        constructor; [left; by eexists | ].
        constructor; [right; exists n, c; split; [by left | reflexivity] | ].
        eapply Forall_impl; [exact Hev | ].
        intros ev [Hm | (n0 & c0 & Hin & ->)]; [by left | ].
        right. exists n0, c0. split; [by right | reflexivity].
    + match goal with |- context [check_writable t ?sa] =>
        rewrite (check_writable_ok t sa) end.
      2:{ repeat split; [exact Hd | exact He | | exact Hr].
          apply andb_false_iff in Hc as [Hc | Hc];
            apply negb_false_iff in Hc; unfold dir_exists; fold w t up.
          - by rewrite Hc.
          - apply orb_true_iff in Hc as [Hc | Hc].
            + apply bool_decide_eq_true_1 in Hc. rewrite Hf in Hc. by destruct Hc.
            + by rewrite Hc, !orb_true_r. }
      cbn.
      match goal with |- context [extractall dest ms ?sb] =>
        pose proof (IH sb) as IHs; destruct (extractall dest ms sb) as [s' r] end.
      specialize (IHs (fun nc Hin => Hsub nc (or_intror Hin)) Hcross).
      cbn in IHs. destruct IHs as (-> & Hw' & Hen & Hco & Hlo & Hfi & Hdi & evs & Htr & Hev).
      { apply List.Forall_forall. intros [n' c'] Hin.
        pose proof (proj1 (List.Forall_forall _ _) Hms _ Hin) as (Hd' & He' & Hf' & Hr').
        destruct (Hall n' c' Hin) as [H1 H2]. cbn. repeat split; [exact Hd' | exact He' | | exact Hr'].
        rewrite lookup_insert_ne by exact H1. exact Hf'. }
      repeat split; try assumption.
      * intros d Hd''. destruct (Hdi d Hd'') as [Hin | (n0 & c0 & Hin & ->)]; [by left | ].
        right. exists n0, c0. split; [by right | reflexivity].
      * exists ([EvWrite t] ++ evs)%list. rewrite Htr. split.
        { cbn. by rewrite <- !app_assoc. }
        constructor; [right; exists n, c; split; [by left | reflexivity] | ].
        eapply Forall_impl; [exact Hev | ].
        intros ev [Hm | (n0 & c0 & Hin & ->)]; [by left | ].
        right. exists n0, c0. split; [by right | reflexivity].
Qed.

Lemma extractall_clear dest members s :
  extract_clear (world s) (files s) (dirs s) dest members ->
  let '(s', r) := extractall dest members s in
  r = Ret tt /\ world s' = world s /\ env s' = env s /\ counter s' = counter s /\
  logs s' = logs s /\
  files s' = extracted (world s) dest members (files s) /\
  (forall d, d ∈ dirs s' -> d ∈ dirs s \/
     exists n c, In (n, c) members /\ d = os_dirname (world s) (os_join (world s) dest n)) /\
  exists evs, trace s' = (trace s ++ evs)%list /\ Forall (extract_event (world s) dest members) evs.
Proof.
  intros H. apply (extractall_clear_aux members); [done | | ].
  - intros n c n' c' Hin Hin'.
    pose proof (proj1 (List.Forall_forall _ _) H _ Hin) as (_ & _ & _ & _ & Hx).
    exact (proj1 (List.Forall_forall _ _) Hx _ Hin').
  - eapply Forall_impl; [exact H | ]. intros [n c]; cbv zeta.
    intros (H1 & H2 & H3 & H4 & _). by repeat split.
Qed.

Lemma string_rev_involutive a : string_rev (string_rev a) = a.
Proof.
  induction a as [|c a IH]; [reflexivity | ]. cbn [string_rev].
  rewrite string_rev_app, IH. reflexivity.
Qed.

Lemma drop_while_suffix p a : exists u, a = (u ++ drop_while p a)%string.
Proof.
  induction a as [|c a [u IH]]; [by exists EmptyString | ]. cbn. destruct (p c).
  - exists (String c u). rewrite str_app_cons, <- IH. reflexivity.
  - exists EmptyString. reflexivity.
Qed.

Lemma rev_drop_prefix p a :
  exists r, a = (string_rev (drop_while p (string_rev a)) ++ r)%string.
Proof.
  destruct (drop_while_suffix p (string_rev a)) as [u Hu].
  exists (string_rev u). rewrite <- string_rev_app, <- Hu. symmetry.
  apply string_rev_involutive.
Qed.

(** [posixpath.dirname(p)] is a prefix of [p]. *)
Lemma posix_dirname_prefix p : exists r, p = (posix_dirname p ++ r)%string.
Proof.
  unfold posix_dirname. cbv zeta.
  destruct (rev_drop_prefix (fun c => negb (is_sep posix_seps c)) p) as [r1 H1].
  set (head := string_rev (drop_while (fun c => negb (is_sep posix_seps c)) (string_rev p)))
    in *.
  destruct (rev_drop_prefix (is_sep posix_seps) head) as [r2 H2].
  set (stripped := string_rev (drop_while (is_sep posix_seps) (string_rev head))) in *.
  destruct (String.eqb stripped EmptyString); [by exists r1 | ].
  exists (r2 ++ r1)%string. rewrite <- str_app_assoc, <- H2. exact H1.
Qed.

Lemma str_length_app a b : String.length (a ++ b) = String.length a + String.length b.
Proof. induction a as [|c a IH]; [reflexivity | ]. rewrite str_app_cons. cbn. by rewrite IH. Qed.

Lemma posix_join_length a b : String.length b <= String.length (posix_join a b).
Proof. unfold posix_join. repeat case_match; rewrite ?str_length_app; cbn; lia. Qed.

(** The temporary file [NamedTemporaryFile] made in [s] can be opened
    for writing after it, unless a directory is there or writing it is
    refused. *)
Lemma temp_path_writable s s1 sfx :
  sfx <> EmptyString -> str_forall not_sep sfx = true ->
  world s1 = world s -> dirs s1 = {[tempdir]} ∪ dirs s ->
  temp_path s sfx ∉ dirs s -> read_only (world s) (temp_path s sfx) = false ->
  writable_file s1 (temp_path s sfx).
Proof.
  intros Hne Hsfx Hw1 Hd1 Hnd Hro. repeat split.
  - rewrite Hd1. intros [Ht | Hin]%elem_of_union;
      [apply elem_of_singleton in Ht; by apply (temp_path_not_tempdir s _ Ht) | done].
  - rewrite Hw1. by apply temp_path_not_dir_name.
  - rewrite Hw1, temp_path_dirname by exact Hsfx. unfold dir_exists.
    rewrite Hd1, bool_decide_eq_true_2 by set_solver. by rewrite !orb_true_r.
  - by rewrite Hw1.
Qed.

(** The directory the release archive of a version unpacks to. *)
Definition release_dir (version os arch : string) : string :=
  "vespa-cli_" ++ version ++ "_" ++ os ++ "_" ++ arch.

(** Where [run] of [vespa/cli] looks for the executable:
    [os.path.abspath(f"vespa-cli_{version}_{self.arch}/bin/{exe}")]. *)
Definition old_bin_path (w : World) (self : installer) (version : string) : string :=
  posix_join (cwd w) ("vespa-cli_" ++ version ++ "_" ++ arch self ++ "/bin/"
                      ++ vespa_executable_name self).

(** No path below the release directory starts with [old_bin_path]. *)
Lemma release_member_not_below_bin_path (w : World) (self : installer)
    (version rest x : string) :
  In (os_name self) ["darwin"; "linux"] ->
  In (arch self) ["amd64"; "arm64"; "386"] ->
  posix_join (cwd w) (release_dir version (os_name self) (arch self) ++ "/" ++ rest)
    <> (old_bin_path w self version ++ x)%string.
Proof.
  intros Hos Harch. unfold old_bin_path, release_dir, posix_join.
  assert (Hne : forall x0 y z t : string,
    In x0 ["darwin"; "linux"] -> In y ["amd64"; "arm64"; "386"] ->
    ("vespa-cli_" ++ version ++ "_" ++ x0 ++ "_" ++ y ++ "/" ++ z)%string <>
    ("vespa-cli_" ++ version ++ "_" ++ y ++ "/bin/" ++ t)%string).
  { intros x0 y z t Hx Hy E.
    do 3 apply str_app_inv_l in E.
    destruct Hx as [<- | [<- | []]]; destruct Hy as [<- | [<- | [<- | []]]];
      rewrite !str_app_cons in E; discriminate. }
  pose proof (Hne (os_name self) (arch self) rest (vespa_executable_name self ++ x)
                Hos Harch) as N.
  assert (G : forall t, String.get 0 ("vespa-cli_" ++ t) = Some "v"%char) by reflexivity.
  rewrite !G. cbv beta iota.
  intros E. apply N.
  destruct (String.eqb (cwd w) EmptyString); [ | destruct (endswith (cwd w) "/")];
    rewrite !str_app_assoc in E; [exact E | | ]; apply str_app_inv_l in E; [exact E | ].
  apply str_app_inv_l in E. exact E.
Qed.

Lemma old_bin_path_not_tempdir w self version : old_bin_path w self version <> tempdir.
Proof.
  unfold old_bin_path. intros E.
  pose proof (posix_join_length (cwd w) ("vespa-cli_" ++ version ++ "_" ++ arch self
                                          ++ "/bin/" ++ vespa_executable_name self)) as H.
  rewrite E, str_length_app in H. cbn in H. lia.
Qed.

(** A published Linux release: its archive unpacks under
    vespa-cli_8.299.14_linux_amd64/. *)
Definition release_world : World := {|
  platform_system := "Linux";
  platform_machine := "x86_64";
  http := fun _ => Resp 200 "archive-bytes";
  unpack := fun _ c => if String.eqb c "archive-bytes"
                       then Some [("vespa-cli_8.299.14_linux_amd64/bin/vespa", "ELF")]
                       else None;
  proc := fun _ => Exited 0;
  json_tag_name := fun _ => Some "v8.299.14";
  cwd := "/home/user";
  read_only := fun _ => false;
  project_root := "/src";
  package_dir := "/src/vespacli"
|}.

Definition linux_installer : installer :=
  {| os_name := "linux"; arch := "amd64"; vespa_executable_name := "vespa" |}.

(** The working directory exists; no file yet. *)
Definition release_state : St := set_dirs {["/home/user"]} (state_of release_world ∅ ∅).

